(** * Tax metrics calculator: a shallow embedding of [calculateAllMetrics]

    The calculator lives in [src/App.tsx] (the revision that reads its
    inputs in raw currency units) and in two older revisions of the same
    file that read them in millions.  The static tables come from
    [constants.ts] and the record types from [types.ts].

    Numbers.  The program computes with IEEE 754 doubles; its
    specification speaks of signed real numbers with no rounding.  The
    calculator is therefore embedded twice, from the same source text.

    - [Double] is the calculator over binary64, operation for operation:
      every result is rounded to the nearest double, a figure can
      overflow to an infinity, [Infinity * 0] and [Infinity - Infinity]
      are [NaN], and there are two zeros.  What is stated about the values
      the code returns, field by field, is stated of [Double], and so is
      every input on which the code departs from the arithmetic of the
      reals.

    - [App] is the calculator over the rationals [Q], compared with [==]:
      the arithmetic of the specification.  Every constant of the program
      is a decimal fraction and the only division is
      [12 / settlementMonth], so [Q] is closed under everything the code
      computes.  Orders, signs and bounds are proved there, and so are
      the figures of scenarios that no rounding touches.  [NaN] is kept
      where these statements can meet it: as the reading of a string that
      is not a numeral and as the number an [undefined] coerces to. *)

From Stdlib Require Import QArith Qabs Lqa ZArith Lia String Ascii List Floats.
From stdpp Require Import gmap strings.

(** A decimal literal of the source that is no double denotes the nearest
    one; so it does where a double is written below. *)
Set Warnings "-inexact-float".

Local Open Scope Q_scope.

(** ** The parts of the language the calculator relies on *)
Module Js.

(** A [number] that may fail to be one. *)
Inductive number : Type :=
| NaN
| Fin (q : Q).

(** [a * b] on numbers: [NaN] is absorbing. *)
Definition mul (a b : number) : number :=
  match a, b with
  | Fin x, Fin y => Fin (x * y)
  | _, _ => NaN
  end.

(** The value of an optional numeric property: [None] is [undefined]. *)
Definition ToNumber (v : option number) : number :=
  match v with
  | Some n => n
  | None => NaN
  end.

(** *** Abrupt completion *)
Inductive Error : Type := TypeError.

Inductive Completion (A : Type) : Type :=
| Normal (a : A)
| Throw (e : Error).
Arguments Normal {A} a.
Arguments Throw {A} e.

#[global] Instance Completion_ret : MRet Completion := @Normal.
#[global] Instance Completion_bind : MBind Completion :=
  fun A B f m => match m with Normal a => f a | Throw e => Throw e end.

(** *** [Number(string)]

    Strings are sequences of UTF-8 bytes.  [Number] strips white space
    and line terminators from both ends, reads the empty string as [0],
    and otherwise accepts a signed decimal literal (digits, an optional
    fraction, an optional exponent) or an unsigned binary, octal or
    hexadecimal integer literal.  Anything else is [NaN].  The signed
    literal [Infinity] denotes no rational: the model has no value for it,
    [Number] below reads it as [NaN], and what is stated about non-numeric
    strings leaves it out ([StrInfinityLiteral]). *)

Definition bytes (s : string) : list N :=
  List.map N_of_ascii (list_ascii_of_string s).

(** UTF-8 encodings of the WhiteSpace and LineTerminator code points. *)
Definition StrWhiteSpaceChar : list (list N) :=
  [ [9]; [10]; [11]; [12]; [13]; [32]; [194; 160]; [225; 154; 128];
    [226; 128; 128]; [226; 128; 129]; [226; 128; 130]; [226; 128; 131];
    [226; 128; 132]; [226; 128; 133]; [226; 128; 134]; [226; 128; 135];
    [226; 128; 136]; [226; 128; 137]; [226; 128; 138]; [226; 128; 168];
    [226; 128; 169]; [226; 128; 175]; [226; 129; 159]; [227; 128; 128];
    [239; 187; 191] ]%N.

Fixpoint stripPrefix (p l : list N) : option (list N) :=
  match p, l with
  | [], _ => Some l
  | a :: p', b :: l' => if (a =? b)%N then stripPrefix p' l' else None
  | _ :: _, [] => None
  end.

Fixpoint stripAny (codes : list (list N)) (l : list N) : option (list N) :=
  match codes with
  | [] => None
  | c :: cs =>
      match stripPrefix c l with
      | Some l' => Some l'
      | None => stripAny cs l
      end
  end.

Fixpoint trimStartWith (codes : list (list N)) (fuel : nat) (l : list N)
  : list N :=
  match fuel with
  | O => l
  | S fuel' =>
      match stripAny codes l with
      | Some l' => trimStartWith codes fuel' l'
      | None => l
      end
  end.

Definition trimStart (l : list N) : list N :=
  trimStartWith StrWhiteSpaceChar (length l) l.

Definition trimEnd (l : list N) : list N :=
  rev (trimStartWith (List.map (@rev N) StrWhiteSpaceChar) (length l) (rev l)).

Definition trim (l : list N) : list N := trimEnd (trimStart l).

(** Digits of a radix up to sixteen. *)
Definition digitOf (radix : Z) (c : N) : option Z :=
  let v :=
    if ((48 <=? c) && (c <=? 57))%N then Some (Z.of_N c - 48)%Z
    else if ((97 <=? c) && (c <=? 102))%N then Some (Z.of_N c - 87)%Z
    else if ((65 <=? c) && (c <=? 70))%N then Some (Z.of_N c - 55)%Z
    else None in
  match v with
  | Some d => if (d <? radix)%Z then Some d else None
  | None => None
  end.

(** The longest prefix of digits, and what follows it. *)
Fixpoint takeDigits (radix : Z) (l : list N) : list Z * list N :=
  match l with
  | [] => ([], [])
  | c :: l' =>
      match digitOf radix c with
      | Some d => let (ds, rest) := takeDigits radix l' in (d :: ds, rest)
      | None => ([], l)
      end
  end.

Definition valueOf (radix : Z) (ds : list Z) : Z :=
  fold_left (fun acc d => (acc * radix + d)%Z) ds 0%Z.

Definition nonEmpty {A : Type} (l : list A) : bool :=
  match l with [] => false | _ :: _ => true end.

(** ExponentPart, or nothing; the whole remainder must be consumed. *)
Definition exponentPart (l : list N) : option Z :=
  match l with
  | [] => Some 0%Z
  | c :: r =>
      if ((c =? 101) || (c =? 69))%N then
        let '(neg, r') :=
          match r with
          | 43%N :: r'' => (false, r'')
          | 45%N :: r'' => (true, r'')
          | _ => (false, r)
          end in
        let (ds, rest) := takeDigits 10 r' in
        if nonEmpty ds && negb (nonEmpty rest)
        then Some (if neg then - valueOf 10 ds else valueOf 10 ds)%Z
        else None
      else None
  end.

Definition StrUnsignedDecimalLiteral (l : list N) : option Q :=
  let (ip, r1) := takeDigits 10 l in
  let '(dot, fp, r2) :=
    match r1 with
    | 46%N :: r => let (f, r') := takeDigits 10 r in (true, f, r')
    | _ => (false, [], r1)
    end in
  if nonEmpty ip || (dot && nonEmpty fp) then
    match exponentPart r2 with
    | Some e =>
        Some (inject_Z (valueOf 10 (ip ++ fp))
              / 10 ^ Z.of_nat (length fp) * 10 ^ e)
    | None => None
    end
  else None.

Definition StrDecimalLiteral (l : list N) : option Q :=
  match l with
  | 43%N :: r => StrUnsignedDecimalLiteral r
  | 45%N :: r => option_map Qopp (StrUnsignedDecimalLiteral r)
  | _ => StrUnsignedDecimalLiteral l
  end.

Definition NonDecimalIntegerLiteral (l : list N) : option Q :=
  match l with
  | 48%N :: p :: r =>
      let radix :=
        if ((p =? 120) || (p =? 88))%N then Some 16%Z
        else if ((p =? 111) || (p =? 79))%N then Some 8%Z
        else if ((p =? 98) || (p =? 66))%N then Some 2%Z
        else None in
      match radix with
      | Some b =>
          let (ds, rest) := takeDigits b r in
          if nonEmpty ds && negb (nonEmpty rest)
          then Some (inject_Z (valueOf b ds))
          else None
      | None => None
      end
  | _ => None
  end.

Definition StrInfinityLiteral (t : list N) : bool :=
  match t with
  | 43%N :: r | 45%N :: r => bool_decide (r = bytes "Infinity")
  | _ => bool_decide (t = bytes "Infinity")
  end.

Definition Number (s : string) : number :=
  match trim (bytes s) with
  | [] => Fin 0
  | t =>
      match StrDecimalLiteral t with
      | Some q => Fin q
      | None =>
          match NonDecimalIntegerLiteral t with
          | Some q => Fin q
          | None => NaN
          end
      end
  end.

(** [n || 0]: a falsy number ([NaN] or zero) gives way to the literal
    [0]; the result is always a finite number. *)
Definition orZero (n : number) : Q :=
  match n with
  | NaN => 0
  | Fin q => if Qeq_bool q 0 then 0 else q
  end.

(** [Math.max(0, x)] *)
Definition max0 (x : Q) : Q := if Qle_bool x 0 then 0 else x.

(** [a > 0] *)
Definition positive (a : Q) : bool := negb (Qle_bool a 0).

(** *** Property lookup on an object literal

    [o[key]] on an object written as a literal finds the object's own
    property, or else the member of [Object.prototype] of that name,
    or else [undefined].  The own properties are a finite map. *)
Definition ObjectPrototype : list string :=
  [ "constructor"; "hasOwnProperty"; "isPrototypeOf";
    "propertyIsEnumerable"; "toLocaleString"; "toString"; "valueOf";
    "__proto__"; "__defineGetter__"; "__defineSetter__";
    "__lookupGetter__"; "__lookupSetter__" ]%string.

Inductive Property (A : Type) : Type :=
| Undefined
| Own (a : A)
| Inherited (name : string).
Arguments Undefined {A}.
Arguments Own {A} a.
Arguments Inherited {A} name.

Definition Get {A : Type} (o : gmap string A) (key : string) : Property A :=
  match o !! key with
  | Some a => Own a
  | None =>
      if bool_decide (key ∈ ObjectPrototype) then Inherited key
      else Undefined
  end.

(** Only [undefined] is falsy among the values a lookup returns: the
    inherited members are functions or the prototype object itself. *)
Definition ToBoolean {A : Type} (p : Property A) : bool :=
  match p with
  | Undefined => false
  | Own _ | Inherited _ => true
  end.

(** [o.member] where [o] may be [undefined]. *)
Definition member {A : Type} (o : option A) : Completion A :=
  match o with
  | Some a => Normal a
  | None => Throw TypeError
  end.

End Js.

Import Js.


(** ** [types.ts] *)

Record YearData : Type := {
  revenue : string;
  cogs : string;
  sga : string;
  nonOpIncome : string;
  nonOpExpense : string;
  additionalExpenses : string
}.

(** ['individual' | 'corporate' | null]; [None] is [null]. *)
Inductive EntityTag : Type := Individual | Corporate.
Definition EntityType : Type := option EntityTag.

(** An upper limit is a number or [Infinity]. *)
Inductive Limit : Type :=
| Finite (q : Q)
| Infinity.

Record TaxBracket : Type := {
  limit : Limit;
  rate : Q;
  deduction : Q
}.

(** Every field is optional; [None] reads as [undefined]. *)
Record CalculationResult : Type := {
  numRevenue : option number;
  numCogs : option number;
  grossProfit : option number;
  numSga : option number;
  operatingIncome : option number;
  numNonOpIncome : option number;
  numNonOpExpense : option number;
  numAdditionalExpenses : option number;
  currentNetIncomeBeforeAdjustment : option number;
  currentNetIncomeAfterAdjustment : option number;
  annualizedRevenue : option number;
  annualizedCogs : option number;
  annualizedGrossProfit : option number;
  annualizedSga : option number;
  annualizedOperatingIncome : option number;
  annualizedNonOpIncome : option number;
  annualizedNonOpExpense : option number;
  annualizedNetIncomeBeforeAdjustment : option number;
  annualizedNetIncomeAfterAdjustment : option number;
  baseTaxAfter : option number;
  taxCreditAmountAfter : option number;
  taxAfterCredit : option number;
  finalTaxBefore : option number;
  finalTaxAfter : option number;
  taxSavings : option number;
  safeProfit : option number;
  profitMargin : option number
}.

(** The object literal [{}]. *)
Definition emptyResult : CalculationResult :=
  {| numRevenue := None; numCogs := None; grossProfit := None;
     numSga := None; operatingIncome := None; numNonOpIncome := None;
     numNonOpExpense := None; numAdditionalExpenses := None;
     currentNetIncomeBeforeAdjustment := None;
     currentNetIncomeAfterAdjustment := None;
     annualizedRevenue := None; annualizedCogs := None;
     annualizedGrossProfit := None; annualizedSga := None;
     annualizedOperatingIncome := None; annualizedNonOpIncome := None;
     annualizedNonOpExpense := None;
     annualizedNetIncomeBeforeAdjustment := None;
     annualizedNetIncomeAfterAdjustment := None;
     baseTaxAfter := None; taxCreditAmountAfter := None;
     taxAfterCredit := None; finalTaxBefore := None; finalTaxAfter := None;
     taxSavings := None; safeProfit := None; profitMargin := None |}.

(** ** [constants.ts] *)

Definition INDIVIDUAL_TAX_BRACKETS : list TaxBracket :=
  [ {| limit := Finite 14000000; rate := 0.06; deduction := 0 |};
    {| limit := Finite 50000000; rate := 0.15; deduction := 1260000 |};
    {| limit := Finite 88000000; rate := 0.24; deduction := 5760000 |};
    {| limit := Finite 150000000; rate := 0.35; deduction := 15440000 |};
    {| limit := Finite 300000000; rate := 0.38; deduction := 19940000 |};
    {| limit := Finite 500000000; rate := 0.40; deduction := 25940000 |};
    {| limit := Finite 1000000000; rate := 0.42; deduction := 35940000 |};
    {| limit := Infinity; rate := 0.45; deduction := 65940000 |} ].

Definition CORPORATE_TAX_BRACKETS : list TaxBracket :=
  [ {| limit := Finite 200000000; rate := 0.09; deduction := 0 |};
    {| limit := Finite 20000000000; rate := 0.19; deduction := 20000000 |};
    {| limit := Finite 300000000000; rate := 0.21; deduction := 420000000 |};
    {| limit := Infinity; rate := 0.24; deduction := 9420000000 |} ].

Definition SETTLEMENT_MONTHS : list Q := [8; 9; 10; 11; 12].

Definition BASIC_DEDUCTION : Q := 1500000.

Record ProfitMargin : Type := {
  individual : Q;
  corporate : Q
}.

Definition INDUSTRY_PROFIT_MARGINS : gmap string ProfitMargin :=
  list_to_map
    [ ("도소매업"%string, {| individual := 0.117; corporate := 0.045 |});
      ("제조업"%string, {| individual := 0.0431; corporate := 0.023 |});
      ("음식숙박업"%string, {| individual := 0.0889; corporate := 0.03 |});
      ("서비스업"%string, {| individual := 0.0851; corporate := 0.016 |});
      ("건설업"%string, {| individual := 0.1219; corporate := 0.043 |});
      ("부동산업"%string, {| individual := 0.1058; corporate := 0.02 |}) ].

(** ** Helpers shared by the revisions of [App.tsx] *)

(** [income <= bracket.limit] *)
Definition withinLimit (income : Q) (l : Limit) : bool :=
  match l with
  | Finite q => Qle_bool income q
  | Infinity => true
  end.

(** The [for ... of] loop of [calculateTax]: the first bracket that holds
    the income replaces [applicableBracket] and ends the loop. *)
Fixpoint scanBrackets (income : Q) (brackets : list TaxBracket)
    (applicableBracket : option TaxBracket) : option TaxBracket :=
  match brackets with
  | [] => applicableBracket
  | bracket :: rest =>
      if withinLimit income (limit bracket) then Some bracket
      else scanBrackets income rest applicableBracket
  end.

(** [profitMarginDetails[entityType]]: a table entry has the property, an
    inherited member of [Object.prototype] does not, and [undefined] has
    no properties at all. *)
Definition marginFor (details : Property ProfitMargin) (entityType : EntityTag)
  : Completion (option number) :=
  match details with
  | Undefined => Throw TypeError
  | Own m =>
      Normal (Some (Fin (match entityType with
                         | Individual => individual m
                         | Corporate => corporate m
                         end)))
  | Inherited _ => Normal None
  end.

(** ** [src/App.tsx]: inputs in raw currency units *)
Module App.

(** The closure [calculateTax] of [calculateAllMetrics]; it captures
    [entityType], which is not [null] where it is defined. *)
Definition calculateTax (entityType : EntityTag) (income : Q) : Completion Q :=
  if Qle_bool income 0 then mret 0
  else
    let brackets :=
      match entityType with
      | Individual => INDIVIDUAL_TAX_BRACKETS
      | Corporate => CORPORATE_TAX_BRACKETS
      end in
    let applicableBracket := scanBrackets income brackets (last brackets) in
    b ← member applicableBracket;
    mret (income * rate b - deduction b).

Definition calculateAllMetrics (data : YearData) (settlementMonth : Q)
    (entityType : EntityType) (includeLocalTax : bool) (taxCreditRate : Q)
    (industry : string) : Completion CalculationResult :=
  match entityType with
  | None => mret emptyResult
  | Some entity =>
    let numRevenue := orZero (Number (revenue data)) in
    let numCogs := orZero (Number (cogs data)) in
    let numSga := orZero (Number (sga data)) in
    let numNonOpIncome := orZero (Number (nonOpIncome data)) in
    let numNonOpExpense := orZero (Number (nonOpExpense data)) in
    let numAdditionalExpenses :=
      orZero (Number (additionalExpenses data)) in

    let annualizationFactor :=
      if positive settlementMonth then 12 / settlementMonth else 0 in

    let grossProfit := numRevenue - numCogs in
    let operatingIncome := grossProfit - numSga in
    let currentNetIncomeBeforeAdjustment :=
      operatingIncome + numNonOpIncome - numNonOpExpense in
    let currentNetIncomeAfterAdjustment :=
      currentNetIncomeBeforeAdjustment - numAdditionalExpenses in

    let annualizedRevenue := numRevenue * annualizationFactor in
    let annualizedCogs := numCogs * annualizationFactor in
    let annualizedSga := numSga * annualizationFactor in
    let annualizedNonOpIncome := numNonOpIncome * annualizationFactor in
    let annualizedNonOpExpense := numNonOpExpense * annualizationFactor in
    let annualizedGrossProfit := grossProfit * annualizationFactor in
    let annualizedOperatingIncome := operatingIncome * annualizationFactor in
    let annualizedNetIncomeBeforeAdjustment :=
      annualizedOperatingIncome + annualizedNonOpIncome
      - annualizedNonOpExpense in
    let annualizedNetIncomeAfterAdjustment :=
      annualizedNetIncomeBeforeAdjustment - numAdditionalExpenses in

    let deduction :=
      match entity with
      | Individual => BASIC_DEDUCTION
      | Corporate => 0
      end in

    let taxableIncomeBefore :=
      max0 (annualizedNetIncomeBeforeAdjustment - deduction) in
    baseTaxBefore ← calculateTax entity taxableIncomeBefore;

    let taxableIncomeAfter :=
      max0 (annualizedNetIncomeAfterAdjustment - deduction) in
    baseTaxAfter ← calculateTax entity taxableIncomeAfter;

    let taxCreditAmountAfter := baseTaxAfter * taxCreditRate in
    let taxAfterCredit := baseTaxAfter - taxCreditAmountAfter in

    let finalTaxBefore :=
      (baseTaxBefore * (1 - taxCreditRate))
      * (if includeLocalTax then 1.1 else 1) in
    let finalTaxAfter :=
      taxAfterCredit * (if includeLocalTax then 1.1 else 1) in

    let taxSavings := finalTaxBefore - finalTaxAfter in

    let profitMarginDetails := Get INDUSTRY_PROFIT_MARGINS industry in
    profitMargin ←
      (if ToBoolean profitMarginDetails
       then marginFor profitMarginDetails entity
       else mret (Some (Fin 0)));
    let safeProfit := mul (Fin annualizedRevenue) (ToNumber profitMargin) in

    mret
      {| numRevenue := Some (Fin numRevenue);
         numCogs := Some (Fin numCogs);
         grossProfit := Some (Fin grossProfit);
         numSga := Some (Fin numSga);
         operatingIncome := Some (Fin operatingIncome);
         numNonOpIncome := Some (Fin numNonOpIncome);
         numNonOpExpense := Some (Fin numNonOpExpense);
         numAdditionalExpenses := Some (Fin numAdditionalExpenses);
         currentNetIncomeBeforeAdjustment :=
           Some (Fin currentNetIncomeBeforeAdjustment);
         currentNetIncomeAfterAdjustment :=
           Some (Fin currentNetIncomeAfterAdjustment);
         annualizedRevenue := Some (Fin annualizedRevenue);
         annualizedCogs := Some (Fin annualizedCogs);
         annualizedGrossProfit := Some (Fin annualizedGrossProfit);
         annualizedSga := Some (Fin annualizedSga);
         annualizedOperatingIncome := Some (Fin annualizedOperatingIncome);
         annualizedNonOpIncome := Some (Fin annualizedNonOpIncome);
         annualizedNonOpExpense := Some (Fin annualizedNonOpExpense);
         annualizedNetIncomeBeforeAdjustment :=
           Some (Fin annualizedNetIncomeBeforeAdjustment);
         annualizedNetIncomeAfterAdjustment :=
           Some (Fin annualizedNetIncomeAfterAdjustment);
         baseTaxAfter := Some (Fin baseTaxAfter);
         taxCreditAmountAfter := Some (Fin taxCreditAmountAfter);
         taxAfterCredit := Some (Fin taxAfterCredit);
         finalTaxBefore := Some (Fin finalTaxBefore);
         finalTaxAfter := Some (Fin finalTaxAfter);
         taxSavings := Some (Fin taxSavings);
         safeProfit := Some safeProfit;
         profitMargin := profitMargin |}
  end.

End App.

(** ** The calculator over binary64

    The same source, with the numbers the engine computes with: every
    number is an IEEE 754 double, every operation rounds to the nearest
    double (ties to even), a decimal literal of the source denotes the
    nearest double, and [Infinity], [NaN] and the two zeros are values.
    The doubles and their operations are the primitive floats of Rocq,
    which its library specifies by [Prim2SF] and the operations of
    [SpecFloat]. *)
Module Double.

Local Open Scope float_scope.

(** *** [Number(string)]

    The grammar is the one of [Js]; the value of a numeral is the double
    nearest to the rational it denotes, an infinity when that is out of
    range.  The quotient of numerator and denominator is rounded once, by
    the division of [SpecFloat] on integer significands. *)
Definition ofQ (q : Q) : float :=
  match Qnum q with
  | Z0 => 0
  | Zpos n =>
      SF2Prim (SFdiv prec emax (S754_finite false n 0)
                 (S754_finite false (Qden q) 0))
  | Zneg n =>
      SF2Prim (SFdiv prec emax (S754_finite true n 0)
                 (S754_finite false (Qden q) 0))
  end.

Definition StrUnsignedDecimalLiteral (l : list N) : option float :=
  if bool_decide (l = bytes "Infinity") then Some infinity
  else option_map ofQ (Js.StrUnsignedDecimalLiteral l).

(** The sign is applied to the double, so that ["-0"] reads as [-0]. *)
Definition StrDecimalLiteral (l : list N) : option float :=
  match l with
  | 43%N :: r => StrUnsignedDecimalLiteral r
  | 45%N :: r => option_map opp (StrUnsignedDecimalLiteral r)
  | _ => StrUnsignedDecimalLiteral l
  end.

Definition Number (s : string) : float :=
  match trim (bytes s) with
  | [] => 0
  | t =>
      match StrDecimalLiteral t with
      | Some x => x
      | None =>
          match NonDecimalIntegerLiteral t with
          | Some q => ofQ q
          | None => nan
          end
      end
  end.

(** [n || 0]: [NaN] and both zeros are falsy. *)
Definition orZero (n : float) : float :=
  if is_nan n || (n =? 0) then 0 else n.

(** [Math.max(0, x)]: [NaN] if [x] is, and [+0] counts as larger than
    [-0]. *)
Definition max0 (x : float) : float :=
  if is_nan x then nan else if x <=? 0 then 0 else x.

(** The number an optional numeric property coerces to: [undefined]
    gives [NaN]. *)
Definition ToNumber (v : option float) : float :=
  match v with
  | Some n => n
  | None => nan
  end.

(** *** [types.ts] and [constants.ts] *)

Record TaxBracket : Type := {
  limit : float;
  rate : float;
  deduction : float
}.

Record CalculationResult : Type := {
  numRevenue : option float;
  numCogs : option float;
  grossProfit : option float;
  numSga : option float;
  operatingIncome : option float;
  numNonOpIncome : option float;
  numNonOpExpense : option float;
  numAdditionalExpenses : option float;
  currentNetIncomeBeforeAdjustment : option float;
  currentNetIncomeAfterAdjustment : option float;
  annualizedRevenue : option float;
  annualizedCogs : option float;
  annualizedGrossProfit : option float;
  annualizedSga : option float;
  annualizedOperatingIncome : option float;
  annualizedNonOpIncome : option float;
  annualizedNonOpExpense : option float;
  annualizedNetIncomeBeforeAdjustment : option float;
  annualizedNetIncomeAfterAdjustment : option float;
  baseTaxAfter : option float;
  taxCreditAmountAfter : option float;
  taxAfterCredit : option float;
  finalTaxBefore : option float;
  finalTaxAfter : option float;
  taxSavings : option float;
  safeProfit : option float;
  profitMargin : option float
}.

(** The object literal [{}]. *)
Definition emptyResult : CalculationResult :=
  {| numRevenue := None; numCogs := None; grossProfit := None;
     numSga := None; operatingIncome := None; numNonOpIncome := None;
     numNonOpExpense := None; numAdditionalExpenses := None;
     currentNetIncomeBeforeAdjustment := None;
     currentNetIncomeAfterAdjustment := None; annualizedRevenue := None;
     annualizedCogs := None; annualizedGrossProfit := None;
     annualizedSga := None; annualizedOperatingIncome := None;
     annualizedNonOpIncome := None; annualizedNonOpExpense := None;
     annualizedNetIncomeBeforeAdjustment := None;
     annualizedNetIncomeAfterAdjustment := None; baseTaxAfter := None;
     taxCreditAmountAfter := None; taxAfterCredit := None;
     finalTaxBefore := None; finalTaxAfter := None; taxSavings := None;
     safeProfit := None; profitMargin := None |}.

Definition resultFields : list (CalculationResult -> option float) :=
  [ numRevenue; numCogs; grossProfit; numSga; operatingIncome;
    numNonOpIncome; numNonOpExpense; numAdditionalExpenses;
    currentNetIncomeBeforeAdjustment; currentNetIncomeAfterAdjustment;
    annualizedRevenue; annualizedCogs; annualizedGrossProfit; annualizedSga;
    annualizedOperatingIncome; annualizedNonOpIncome; annualizedNonOpExpense;
    annualizedNetIncomeBeforeAdjustment; annualizedNetIncomeAfterAdjustment;
    baseTaxAfter; taxCreditAmountAfter; taxAfterCredit; finalTaxBefore;
    finalTaxAfter; taxSavings; safeProfit; profitMargin ].

Definition INDIVIDUAL_TAX_BRACKETS : list TaxBracket :=
  [ {| limit := 14000000; rate := 0.06; deduction := 0 |};
    {| limit := 50000000; rate := 0.15; deduction := 1260000 |};
    {| limit := 88000000; rate := 0.24; deduction := 5760000 |};
    {| limit := 150000000; rate := 0.35; deduction := 15440000 |};
    {| limit := 300000000; rate := 0.38; deduction := 19940000 |};
    {| limit := 500000000; rate := 0.40; deduction := 25940000 |};
    {| limit := 1000000000; rate := 0.42; deduction := 35940000 |};
    {| limit := infinity; rate := 0.45; deduction := 65940000 |} ].

Definition CORPORATE_TAX_BRACKETS : list TaxBracket :=
  [ {| limit := 200000000; rate := 0.09; deduction := 0 |};
    {| limit := 20000000000; rate := 0.19; deduction := 20000000 |};
    {| limit := 300000000000; rate := 0.21; deduction := 420000000 |};
    {| limit := infinity; rate := 0.24; deduction := 9420000000 |} ].

Definition BASIC_DEDUCTION : float := 1500000.

Record ProfitMargin : Type := {
  individual : float;
  corporate : float
}.

Definition INDUSTRY_PROFIT_MARGINS : gmap string ProfitMargin :=
  list_to_map
    [ ("도소매업"%string, {| individual := 0.117; corporate := 0.045 |});
      ("제조업"%string, {| individual := 0.0431; corporate := 0.023 |});
      ("음식숙박업"%string, {| individual := 0.0889; corporate := 0.03 |});
      ("서비스업"%string, {| individual := 0.0851; corporate := 0.016 |});
      ("건설업"%string, {| individual := 0.1219; corporate := 0.043 |});
      ("부동산업"%string, {| individual := 0.1058; corporate := 0.02 |}) ].

(** The [for ... of] loop of [calculateTax]. *)
Fixpoint scanBrackets (income : float) (brackets : list TaxBracket)
    (applicableBracket : option TaxBracket) : option TaxBracket :=
  match brackets with
  | [] => applicableBracket
  | bracket :: rest =>
      if income <=? limit bracket then Some bracket
      else scanBrackets income rest applicableBracket
  end.

(** [profitMarginDetails[entityType]] *)
Definition marginFor (details : Property ProfitMargin) (entityType : EntityTag)
  : Completion (option float) :=
  match details with
  | Undefined => Throw TypeError
  | Own m =>
      Normal (Some (match entityType with
                    | Individual => individual m
                    | Corporate => corporate m
                    end))
  | Inherited _ => Normal None
  end.

(** *** [src/App.tsx]: inputs in raw currency units *)
Module App.

(** The closure [calculateTax] of [calculateAllMetrics]; it captures
    [entityType], which is not [null] where it is defined. *)
Definition calculateTax (entityType : EntityTag) (income : float)
  : Completion float :=
  if income <=? 0 then mret 0
  else
    let brackets :=
      match entityType with
      | Individual => INDIVIDUAL_TAX_BRACKETS
      | Corporate => CORPORATE_TAX_BRACKETS
      end in
    let applicableBracket := scanBrackets income brackets (last brackets) in
    b ← member applicableBracket;
    mret (income * rate b - deduction b).

Definition calculateAllMetrics (data : YearData) (settlementMonth : float)
    (entityType : EntityType) (includeLocalTax : bool) (taxCreditRate : float)
    (industry : string) : Completion CalculationResult :=
  match entityType with
  | None => mret emptyResult
  | Some entity =>
    let numRevenue := orZero (Number (revenue data)) in
    let numCogs := orZero (Number (cogs data)) in
    let numSga := orZero (Number (sga data)) in
    let numNonOpIncome := orZero (Number (nonOpIncome data)) in
    let numNonOpExpense := orZero (Number (nonOpExpense data)) in
    let numAdditionalExpenses := orZero (Number (additionalExpenses data)) in

    let annualizationFactor :=
      if 0 <? settlementMonth then 12 / settlementMonth else 0 in

    let grossProfit := numRevenue - numCogs in
    let operatingIncome := grossProfit - numSga in
    let currentNetIncomeBeforeAdjustment :=
      operatingIncome + numNonOpIncome - numNonOpExpense in
    let currentNetIncomeAfterAdjustment :=
      currentNetIncomeBeforeAdjustment - numAdditionalExpenses in

    let annualizedRevenue := numRevenue * annualizationFactor in
    let annualizedCogs := numCogs * annualizationFactor in
    let annualizedSga := numSga * annualizationFactor in
    let annualizedNonOpIncome := numNonOpIncome * annualizationFactor in
    let annualizedNonOpExpense := numNonOpExpense * annualizationFactor in
    let annualizedGrossProfit := grossProfit * annualizationFactor in
    let annualizedOperatingIncome := operatingIncome * annualizationFactor in
    let annualizedNetIncomeBeforeAdjustment :=
      annualizedOperatingIncome + annualizedNonOpIncome
      - annualizedNonOpExpense in
    let annualizedNetIncomeAfterAdjustment :=
      annualizedNetIncomeBeforeAdjustment - numAdditionalExpenses in

    let deduction :=
      match entity with
      | Individual => BASIC_DEDUCTION
      | Corporate => 0
      end in

    let taxableIncomeBefore :=
      max0 (annualizedNetIncomeBeforeAdjustment - deduction) in
    baseTaxBefore ← calculateTax entity taxableIncomeBefore;

    let taxableIncomeAfter :=
      max0 (annualizedNetIncomeAfterAdjustment - deduction) in
    baseTaxAfter ← calculateTax entity taxableIncomeAfter;

    let taxCreditAmountAfter := baseTaxAfter * taxCreditRate in
    let taxAfterCredit := baseTaxAfter - taxCreditAmountAfter in

    let finalTaxBefore :=
      (baseTaxBefore * (1 - taxCreditRate))
      * (if includeLocalTax then 1.1 else 1) in
    let finalTaxAfter :=
      taxAfterCredit * (if includeLocalTax then 1.1 else 1) in

    let taxSavings := finalTaxBefore - finalTaxAfter in

    let profitMarginDetails := Get INDUSTRY_PROFIT_MARGINS industry in
    profitMargin ←
      (if ToBoolean profitMarginDetails
       then marginFor profitMarginDetails entity
       else mret (Some 0));
    let safeProfit := annualizedRevenue * ToNumber profitMargin in

    mret
      {| numRevenue := Some numRevenue;
         numCogs := Some numCogs;
         grossProfit := Some grossProfit;
         numSga := Some numSga;
         operatingIncome := Some operatingIncome;
         numNonOpIncome := Some numNonOpIncome;
         numNonOpExpense := Some numNonOpExpense;
         numAdditionalExpenses := Some numAdditionalExpenses;
         currentNetIncomeBeforeAdjustment :=
           Some currentNetIncomeBeforeAdjustment;
         currentNetIncomeAfterAdjustment :=
           Some currentNetIncomeAfterAdjustment;
         annualizedRevenue := Some annualizedRevenue;
         annualizedCogs := Some annualizedCogs;
         annualizedGrossProfit := Some annualizedGrossProfit;
         annualizedSga := Some annualizedSga;
         annualizedOperatingIncome := Some annualizedOperatingIncome;
         annualizedNonOpIncome := Some annualizedNonOpIncome;
         annualizedNonOpExpense := Some annualizedNonOpExpense;
         annualizedNetIncomeBeforeAdjustment :=
           Some annualizedNetIncomeBeforeAdjustment;
         annualizedNetIncomeAfterAdjustment :=
           Some annualizedNetIncomeAfterAdjustment;
         baseTaxAfter := Some baseTaxAfter;
         taxCreditAmountAfter := Some taxCreditAmountAfter;
         taxAfterCredit := Some taxAfterCredit;
         finalTaxBefore := Some finalTaxBefore;
         finalTaxAfter := Some finalTaxAfter;
         taxSavings := Some taxSavings;
         safeProfit := Some safeProfit;
         profitMargin := profitMargin |}
  end.

End App.

(** *** The two earlier revisions of [App.tsx]: inputs in millions

    Both revisions have the same [calculateAllMetrics], character for
    character; it differs from the one above in the six factors
    [MILLION]. *)
Module AppMillions.

(** The closure [calculateTax] of [calculateAllMetrics]; it captures
    [entityType], which is not [null] where it is defined. *)
Definition calculateTax (entityType : EntityTag) (income : float)
  : Completion float :=
  if income <=? 0 then mret 0
  else
    let brackets :=
      match entityType with
      | Individual => INDIVIDUAL_TAX_BRACKETS
      | Corporate => CORPORATE_TAX_BRACKETS
      end in
    let applicableBracket := scanBrackets income brackets (last brackets) in
    b ← member applicableBracket;
    mret (income * rate b - deduction b).

Definition calculateAllMetrics (data : YearData) (settlementMonth : float)
    (entityType : EntityType) (includeLocalTax : bool) (taxCreditRate : float)
    (industry : string) : Completion CalculationResult :=
  match entityType with
  | None => mret emptyResult
  | Some entity =>
    let MILLION := 1000000 in
    let numRevenue := orZero (Number (revenue data)) * MILLION in
    let numCogs := orZero (Number (cogs data)) * MILLION in
    let numSga := orZero (Number (sga data)) * MILLION in
    let numNonOpIncome := orZero (Number (nonOpIncome data)) * MILLION in
    let numNonOpExpense := orZero (Number (nonOpExpense data)) * MILLION in
    let numAdditionalExpenses :=
      orZero (Number (additionalExpenses data)) * MILLION in

    let annualizationFactor :=
      if 0 <? settlementMonth then 12 / settlementMonth else 0 in

    let grossProfit := numRevenue - numCogs in
    let operatingIncome := grossProfit - numSga in
    let currentNetIncomeBeforeAdjustment :=
      operatingIncome + numNonOpIncome - numNonOpExpense in
    let currentNetIncomeAfterAdjustment :=
      currentNetIncomeBeforeAdjustment - numAdditionalExpenses in

    let annualizedRevenue := numRevenue * annualizationFactor in
    let annualizedCogs := numCogs * annualizationFactor in
    let annualizedSga := numSga * annualizationFactor in
    let annualizedNonOpIncome := numNonOpIncome * annualizationFactor in
    let annualizedNonOpExpense := numNonOpExpense * annualizationFactor in
    let annualizedGrossProfit := grossProfit * annualizationFactor in
    let annualizedOperatingIncome := operatingIncome * annualizationFactor in
    let annualizedNetIncomeBeforeAdjustment :=
      annualizedOperatingIncome + annualizedNonOpIncome
      - annualizedNonOpExpense in
    let annualizedNetIncomeAfterAdjustment :=
      annualizedNetIncomeBeforeAdjustment - numAdditionalExpenses in

    let deduction :=
      match entity with
      | Individual => BASIC_DEDUCTION
      | Corporate => 0
      end in

    let taxableIncomeBefore :=
      max0 (annualizedNetIncomeBeforeAdjustment - deduction) in
    baseTaxBefore ← calculateTax entity taxableIncomeBefore;

    let taxableIncomeAfter :=
      max0 (annualizedNetIncomeAfterAdjustment - deduction) in
    baseTaxAfter ← calculateTax entity taxableIncomeAfter;

    let taxCreditAmountAfter := baseTaxAfter * taxCreditRate in
    let taxAfterCredit := baseTaxAfter - taxCreditAmountAfter in

    let finalTaxBefore :=
      (baseTaxBefore * (1 - taxCreditRate))
      * (if includeLocalTax then 1.1 else 1) in
    let finalTaxAfter :=
      taxAfterCredit * (if includeLocalTax then 1.1 else 1) in

    let taxSavings := finalTaxBefore - finalTaxAfter in

    let profitMarginDetails := Get INDUSTRY_PROFIT_MARGINS industry in
    profitMargin ←
      (if ToBoolean profitMarginDetails
       then marginFor profitMarginDetails entity
       else mret (Some 0));
    let safeProfit := annualizedRevenue * ToNumber profitMargin in

    mret
      {| numRevenue := Some numRevenue;
         numCogs := Some numCogs;
         grossProfit := Some grossProfit;
         numSga := Some numSga;
         operatingIncome := Some operatingIncome;
         numNonOpIncome := Some numNonOpIncome;
         numNonOpExpense := Some numNonOpExpense;
         numAdditionalExpenses := Some numAdditionalExpenses;
         currentNetIncomeBeforeAdjustment :=
           Some currentNetIncomeBeforeAdjustment;
         currentNetIncomeAfterAdjustment :=
           Some currentNetIncomeAfterAdjustment;
         annualizedRevenue := Some annualizedRevenue;
         annualizedCogs := Some annualizedCogs;
         annualizedGrossProfit := Some annualizedGrossProfit;
         annualizedSga := Some annualizedSga;
         annualizedOperatingIncome := Some annualizedOperatingIncome;
         annualizedNonOpIncome := Some annualizedNonOpIncome;
         annualizedNonOpExpense := Some annualizedNonOpExpense;
         annualizedNetIncomeBeforeAdjustment :=
           Some annualizedNetIncomeBeforeAdjustment;
         annualizedNetIncomeAfterAdjustment :=
           Some annualizedNetIncomeAfterAdjustment;
         baseTaxAfter := Some baseTaxAfter;
         taxCreditAmountAfter := Some taxCreditAmountAfter;
         taxAfterCredit := Some taxAfterCredit;
         finalTaxBefore := Some finalTaxBefore;
         finalTaxAfter := Some finalTaxAfter;
         taxSavings := Some taxSavings;
         safeProfit := Some safeProfit;
         profitMargin := profitMargin |}
  end.

End AppMillions.

(** *** Vocabulary of the statements about doubles *)

(** The tax a call of [calculateTax] completes with. *)
Definition taxOf (entityType : EntityTag) (income : float) : float :=
  match App.calculateTax entityType income with
  | Normal t => t
  | Throw _ => 0
  end.

(** The margin [calculateAllMetrics] ends up with for an industry key. *)
Definition marginOf (industry : string) (entityType : EntityTag)
  : option float :=
  match Get INDUSTRY_PROFIT_MARGINS industry with
  | Undefined => Some 0
  | Own m =>
      Some (match entityType with
            | Individual => individual m
            | Corporate => corporate m
            end)
  | Inherited _ => None
  end.

(** [f === x]: the field holds a number that [===] finds equal to [x]
    (the two zeros are equal, [NaN] equals nothing). *)
Definition strictEq (f : option float) (x : float) : Prop :=
  exists y, f = Some y /\ (y =? x) = true.

(** The field holds a finite number: neither [NaN] nor an infinity. *)
Definition finiteField (f : option float) : Prop :=
  exists y, f = Some y /\ is_finite y = true.

(** The annualized field [ann] is the field [raw] times [factor]. *)
Definition scaledBy (factor : float) (raw ann : option float) : Prop :=
  exists x, raw = Some x /\ ann = Some (x * factor).

(** The six input lines of the result are the six fields of [data] as
    [Number(...) || 0] reads them. *)
Definition parsedFrom (data : YearData) (r : CalculationResult) : Prop :=
  numRevenue r = Some (orZero (Number (revenue data))) /\
  numCogs r = Some (orZero (Number (cogs data))) /\
  numSga r = Some (orZero (Number (sga data))) /\
  numNonOpIncome r = Some (orZero (Number (nonOpIncome data))) /\
  numNonOpExpense r = Some (orZero (Number (nonOpExpense data))) /\
  numAdditionalExpenses r
  = Some (orZero (Number (additionalExpenses data))).

(** The six parsed inputs of [data'] are those of [data] times
    1,000,000, the product being the one of the doubles. *)
Definition scaledInputs (data data' : YearData) : Prop :=
  Forall (fun field : YearData -> string =>
            orZero (Number (field data'))
            = orZero (Number (field data)) * 1000000)
         [revenue; cogs; sga; nonOpIncome; nonOpExpense; additionalExpenses].

(** A string [Number] reads as [NaN]. *)
Definition nonNumeric (s : string) : Prop := is_nan (Number s) = true.

(** An industry key whose lookup in the table does not end at a member
    of [Object.prototype]: a key of the table, which is all the select of
    the form offers, or a string that names no such member. *)
Definition plainKey (industry : string) : Prop :=
  is_Some (INDUSTRY_PROFIT_MARGINS !! industry) \/
  industry ∉ ObjectPrototype.

End Double.

(** ** Vocabulary of the statements *)

(** The field [f] holds a finite number equal to [q]. *)
Definition isNum (f : option number) (q : Q) : Prop :=
  match f with
  | Some (Fin v) => v == q
  | _ => False
  end.

(** Both fields hold finite numbers, related by [R]. *)
Definition rel2 (R : Q -> Q -> Prop) (f g : option number) : Prop :=
  match f, g with
  | Some (Fin x), Some (Fin y) => R x y
  | _, _ => False
  end.

(** Three fields hold finite numbers, related by [R]. *)
Definition rel3 (R : Q -> Q -> Q -> Prop) (f g h : option number) : Prop :=
  match f, g, h with
  | Some (Fin x), Some (Fin y), Some (Fin z) => R x y z
  | _, _, _ => False
  end.

(** The fields of a result, in the order of the record. *)
Definition resultFields : list (CalculationResult -> option number) :=
  [ numRevenue; numCogs; grossProfit; numSga; operatingIncome;
    numNonOpIncome; numNonOpExpense; numAdditionalExpenses;
    currentNetIncomeBeforeAdjustment; currentNetIncomeAfterAdjustment;
    annualizedRevenue; annualizedCogs; annualizedGrossProfit; annualizedSga;
    annualizedOperatingIncome; annualizedNonOpIncome; annualizedNonOpExpense;
    annualizedNetIncomeBeforeAdjustment; annualizedNetIncomeAfterAdjustment;
    baseTaxAfter; taxCreditAmountAfter; taxAfterCredit; finalTaxBefore;
    finalTaxAfter; taxSavings; safeProfit; profitMargin ].

(** [income <= limit], as a proposition. *)
Definition leLimit (income : Q) (l : Limit) : Prop :=
  match l with
  | Finite q => income <= q
  | Infinity => True
  end.

(** The bracket the specification selects: the first one, in table order,
    whose upper limit is at least the income; the last one when there is
    none. *)
Inductive Selected (income : Q) (brackets : list TaxBracket)
  : TaxBracket -> Prop :=
| Selected_first pre b post :
    brackets = pre ++ b :: post ->
    Forall (fun b' => ~ leLimit income (limit b')) pre ->
    leLimit income (limit b) ->
    Selected income brackets b
| Selected_last b :
    Forall (fun b' => ~ leLimit income (limit b')) brackets ->
    last brackets = Some b ->
    Selected income brackets b.

Definition bracketsOf (entityType : EntityTag) : list TaxBracket :=
  match entityType with
  | Individual => INDIVIDUAL_TAX_BRACKETS
  | Corporate => CORPORATE_TAX_BRACKETS
  end.

(** A schedule whose pieces join up: finite limits ascend from [lo], the
    last limit is unbounded, no rate is negative, and at each finite limit
    the bracket below and the bracket above give the same tax. *)
Fixpoint joined (lo : Q) (brackets : list TaxBracket) : Prop :=
  match brackets with
  | [] => False
  | b :: rest =>
      0 <= rate b /\
      match rest with
      | [] => limit b = Infinity
      | b' :: _ =>
          exists L, limit b = Finite L /\ lo <= L /\
                    L * rate b - deduction b == L * rate b' - deduction b' /\
                    joined L rest
      end
  end.

(** Consecutive entries of a table. *)
Definition adjacent {A : Type} (l : list A) : list (A * A) :=
  combine l (tl l).

(** At a finite limit the bracket below and the bracket above agree. *)
Definition agreeAtLimit (p : TaxBracket * TaxBracket) : Prop :=
  match limit (fst p) with
  | Finite L =>
      L * rate (fst p) - deduction (fst p)
      == L * rate (snd p) - deduction (snd p)
  | Infinity => True
  end.

(** The closed form applied to the bracket the loop leaves in
    [applicableBracket]. *)
Definition pieceTax (income : Q) (brackets : list TaxBracket)
    (applicableBracket : option TaxBracket) : Q :=
  match scanBrackets income brackets applicableBracket with
  | Some b => income * rate b - deduction b
  | None => 0
  end.

(** The tax a call of [calculateTax] completes with. *)
Definition taxOf (entityType : EntityTag) (income : Q) : Q :=
  match App.calculateTax entityType income with
  | Normal t => t
  | Throw _ => 0
  end.

(** The margin [calculateAllMetrics] ends up with for an industry key. *)
Definition marginOf (industry : string) (entityType : EntityTag)
  : option number :=
  match Get INDUSTRY_PROFIT_MARGINS industry with
  | Undefined => Some (Fin 0)
  | Own m =>
      Some (Fin (match entityType with
                 | Individual => individual m
                 | Corporate => corporate m
                 end))
  | Inherited _ => None
  end.

(** The scenario of the end-to-end test. *)
Definition scenario : YearData :=
  {| revenue := "100000000"; cogs := "40000000"; sga := "20000000";
     nonOpIncome := "1000000"; nonOpExpense := "500000";
     additionalExpenses := "1000000" |}.

(** The same figures entered in millions. *)
Definition scenarioMillions : YearData :=
  {| revenue := "100"; cogs := "40"; sga := "20";
     nonOpIncome := "1"; nonOpExpense := "0.5";
     additionalExpenses := "1" |}.

(** [data] with one field replaced. *)
Inductive Field : Type :=
| Frevenue | Fcogs | Fsga | FnonOpIncome | FnonOpExpense | FadditionalExpenses.

Definition getField (f : Field) (data : YearData) : string :=
  match f with
  | Frevenue => revenue data
  | Fcogs => cogs data
  | Fsga => sga data
  | FnonOpIncome => nonOpIncome data
  | FnonOpExpense => nonOpExpense data
  | FadditionalExpenses => additionalExpenses data
  end.

Definition setField (f : Field) (s : string) (data : YearData) : YearData :=
  match f with
  | Frevenue =>
      {| revenue := s; cogs := cogs data; sga := sga data;
         nonOpIncome := nonOpIncome data; nonOpExpense := nonOpExpense data;
         additionalExpenses := additionalExpenses data |}
  | Fcogs =>
      {| revenue := revenue data; cogs := s; sga := sga data;
         nonOpIncome := nonOpIncome data; nonOpExpense := nonOpExpense data;
         additionalExpenses := additionalExpenses data |}
  | Fsga =>
      {| revenue := revenue data; cogs := cogs data; sga := s;
         nonOpIncome := nonOpIncome data; nonOpExpense := nonOpExpense data;
         additionalExpenses := additionalExpenses data |}
  | FnonOpIncome =>
      {| revenue := revenue data; cogs := cogs data; sga := sga data;
         nonOpIncome := s; nonOpExpense := nonOpExpense data;
         additionalExpenses := additionalExpenses data |}
  | FnonOpExpense =>
      {| revenue := revenue data; cogs := cogs data; sga := sga data;
         nonOpIncome := nonOpIncome data; nonOpExpense := s;
         additionalExpenses := additionalExpenses data |}
  | FadditionalExpenses =>
      {| revenue := revenue data; cogs := cogs data; sga := sga data;
         nonOpIncome := nonOpIncome data; nonOpExpense := nonOpExpense data;
         additionalExpenses := s |}
  end.

(** A field string is blank when nothing is left after trimming, and
    non-numeric when it is no numeral at all: [Number] reads it as [NaN]
    and it is not the literal [Infinity]. *)
Definition blank (s : string) : Prop := trim (bytes s) = [].
Definition nonNumeric (s : string) : Prop :=
  Number s = NaN /\ StrInfinityLiteral (trim (bytes s)) = false.

(** ** The [App] component of [src/App.tsx]: state, handlers and the
    numbers its pages derive from the results

    The component is modelled as its state, the handlers as functions on
    the state that also list the effects they request ([alert], the
    analysis request), and a render function as the value it computes.
    An object held in the state is the finite map of its properties. *)
Module Ui.

Inductive ViewMode : Type := ViewInput | ViewResult.

(** ['none' | 'startup' | 'special' | null]; [None] is [null]. *)
Inductive TaxCreditTag : Type := CreditNone | CreditStartup | CreditSpecial.
Definition TaxCreditType : Type := option TaxCreditTag.

Definition STARTUP_CREDIT_RATES : gmap string Q :=
  list_to_map [("50%"%string, 0.5); ("100%"%string, 1.0)].

Definition SPECIAL_CREDIT_RATES : gmap string Q :=
  list_to_map [("5%"%string, 0.05); ("10%"%string, 0.1); ("15%"%string, 0.15);
               ("20%"%string, 0.2); ("30%"%string, 0.3)].

Definition YEARS : list Z := [2023; 2024; 2025]%Z.

(** The property name of a [keyof YearData]. *)
Definition fieldName (f : Field) : string :=
  match f with
  | Frevenue => "revenue"
  | Fcogs => "cogs"
  | Fsga => "sga"
  | FnonOpIncome => "nonOpIncome"
  | FnonOpExpense => "nonOpExpense"
  | FadditionalExpenses => "additionalExpenses"
  end.

Definition initialYearData : gmap string string :=
  list_to_map
    [ ("revenue"%string, ""%string); ("cogs"%string, ""%string);
      ("sga"%string, ""%string); ("nonOpIncome"%string, ""%string);
      ("nonOpExpense"%string, ""%string);
      ("additionalExpenses"%string, ""%string) ].

Record State : Type := {
  viewMode : ViewMode;
  currentPage : Z;
  companyName : string;
  entityType : EntityType;
  includeLocalTax : bool;
  settlementMonth : option Q;
  industry : string;
  yearsData : gmap Z (gmap string string);
  taxCreditType : TaxCreditType;
  taxCreditRate : Q;
  aiAnalysis : string;
  isLoadingAnalysis : bool
}.

(** The initial values of the [useState] hooks; the first key of the
    benchmark table is its first entry as written. *)
Definition initialState : State :=
  {| viewMode := ViewInput; currentPage := 1%Z; companyName := "";
     entityType := None; includeLocalTax := false; settlementMonth := None;
     industry := "도소매업";
     yearsData :=
       list_to_map [(2023%Z, initialYearData); (2024%Z, initialYearData);
                    (2025%Z, initialYearData)];
     taxCreditType := None; taxCreditRate := 0; aiAnalysis := "";
     isLoadingAnalysis := false |}.

(** [setTaxCreditType(type); setTaxCreditRate(0)] *)
Definition handleTaxCreditTypeChange (type : TaxCreditType) (s : State)
  : State :=
  {| viewMode := viewMode s; currentPage := currentPage s;
     companyName := companyName s; entityType := entityType s;
     includeLocalTax := includeLocalTax s;
     settlementMonth := settlementMonth s; industry := industry s;
     yearsData := yearsData s;
     taxCreditType := type; taxCreditRate := 0;
     aiAnalysis := aiAnalysis s; isLoadingAnalysis := isLoadingAnalysis s |}.

(** [{ ...prev, [year]: { ...prev[year], [field]: value } }]: spreading
    an [undefined] year adds no property. *)
Definition handleYearDataChange (year : Z) (field : Field) (value : string)
    (s : State) : State :=
  {| viewMode := viewMode s; currentPage := currentPage s;
     companyName := companyName s; entityType := entityType s;
     includeLocalTax := includeLocalTax s;
     settlementMonth := settlementMonth s; industry := industry s;
     yearsData :=
       <[year := <[fieldName field := value]>
                   (default ∅ (yearsData s !! year))]> (yearsData s);
     taxCreditType := taxCreditType s; taxCreditRate := taxCreditRate s;
     aiAnalysis := aiAnalysis s; isLoadingAnalysis := isLoadingAnalysis s |}.

(** [Object.values(yearsData).some(data =>
      Object.values(data).some(value => value !== ''))] *)
Definition hasInputs (s : State) : bool :=
  bool_decide
    (map_Exists
       (fun _ data => map_Exists (fun _ value => value <> ""%string) data)
       (yearsData s)).

(** [!settlementMonth] *)
Definition noMonth (m : option Q) : bool :=
  match m with
  | None => true
  | Some q => Qeq_bool q 0
  end.

(** [settlementMonth || 0] *)
Definition monthOrZero (m : option Q) : Q :=
  match m with
  | None => 0
  | Some q => if Qeq_bool q 0 then 0 else q
  end.

Definition isNull {A : Type} (o : option A) : bool :=
  match o with
  | None => true
  | Some _ => false
  end.

Definition isTag (t : TaxCreditTag) (o : TaxCreditType) : bool :=
  match o, t with
  | Some CreditNone, CreditNone
  | Some CreditStartup, CreditStartup
  | Some CreditSpecial, CreditSpecial => true
  | _, _ => false
  end.

Inductive Effect : Type :=
| Alert (message : string)
| GetAIAnalysis.

(** [setViewMode('result'); setCurrentPage(1)] *)
Definition showResult (s : State) : State :=
  {| viewMode := ViewResult; currentPage := 1%Z;
     companyName := companyName s; entityType := entityType s;
     includeLocalTax := includeLocalTax s;
     settlementMonth := settlementMonth s; industry := industry s;
     yearsData := yearsData s;
     taxCreditType := taxCreditType s; taxCreditRate := taxCreditRate s;
     aiAnalysis := aiAnalysis s; isLoadingAnalysis := isLoadingAnalysis s |}.

(** The handler up to the analysis request, which is left as an effect:
    what the request does to [aiAnalysis] depends on the network. *)
Definition handleViewResult (s : State) : State * list Effect :=
  if isNull (entityType s) then
    (s, [Alert "사업자(개인/법인)을 선택해주세요."])
  else if noMonth (settlementMonth s) then
    (s, [Alert "결산 월을 선택해주세요."])
  else if isNull (taxCreditType s) then
    (s, [Alert "세액공제를 선택해주세요."])
  else if isTag CreditStartup (taxCreditType s)
          && Qeq_bool (taxCreditRate s) 0 then
    (s, [Alert "스타트업 창업 감면율을 선택해주세요."])
  else if isTag CreditSpecial (taxCreditType s)
          && Qeq_bool (taxCreditRate s) 0 then
    (s, [Alert "창업중소기업 세액공제율을 선택해주세요."])
  else
    (showResult s, if hasInputs s then [GetAIAnalysis] else []).

(** Which of its three bodies [renderResultContent] returns. *)
Inductive ResultContent : Type := RequiredMissing | NoInputs | Pages.

Definition renderResultContent (s : State) : ResultContent :=
  if isNull (entityType s) || noMonth (settlementMonth s)
     || isNull (taxCreditType s)
  then RequiredMissing
  else if negb (hasInputs s) then NoInputs
  else Pages.

(** [data.revenue] and the like on an object of the state: a property
    that is missing reads as [undefined], and [Number(undefined)] is [NaN]
    as it is for the string that stands for it here. *)
Definition property (o : gmap string string) (name : string) : string :=
  default "undefined"%string (o !! name).

Definition asYearData (o : gmap string string) : YearData :=
  {| revenue := property o "revenue";
     cogs := property o "cogs";
     sga := property o "sga";
     nonOpIncome := property o "nonOpIncome";
     nonOpExpense := property o "nonOpExpense";
     additionalExpenses := property o "additionalExpenses" |}.

(** One round of the [forEach] of [allCalculations].  With no object
    for the year, [calculateAllMetrics] returns [{}] before it touches
    [data] when the entity type is [null], and throws on [data.revenue]
    otherwise. *)
Definition calculateYear (s : State) (year : Z) : Completion CalculationResult :=
  match yearsData s !! year with
  | Some o =>
      App.calculateAllMetrics (asYearData o) (monthOrZero (settlementMonth s))
        (entityType s) (includeLocalTax s) (taxCreditRate s) (industry s)
  | None =>
      match entityType s with
      | None => Normal emptyResult
      | Some _ => Throw TypeError
      end
  end.

Fixpoint forEachYear (s : State) (years : list Z)
    (results : gmap Z CalculationResult)
  : Completion (gmap Z CalculationResult) :=
  match years with
  | [] => mret results
  | year :: rest =>
      r ← calculateYear s year;
      forEachYear s rest (<[year := r]> results)
  end.

Definition allCalculations (s : State)
  : Completion (gmap Z CalculationResult) :=
  forEachYear s YEARS ∅.

(** A result field used as a condition. *)
Definition truthy (f : option number) : bool :=
  match f with
  | Some (Fin q) => negb (Qeq_bool q 0)
  | _ => false
  end.

(** [f || d] for a result field [f] and a number [d]. *)
Definition fieldOr (f : option number) (d : Q) : Q :=
  match f with
  | Some (Fin q) => if Qeq_bool q 0 then d else q
  | _ => d
  end.

(** [Math.min(1, x)] *)
Definition min1 (x : Q) : Q := if Qle_bool 1 x then 1 else x.


(** [taxSavingsAfterRatio] of [renderPage1]. *)
Definition taxSavingsAfterRatio (calculations : gmap Z CalculationResult) : Q :=
  let calcs2025 := default emptyResult (calculations !! 2025%Z) in
  if truthy (finalTaxBefore calcs2025)
     && positive (fieldOr (finalTaxBefore calcs2025) 0)
  then min1 (max0 (fieldOr (finalTaxAfter calcs2025) 0
                   / fieldOr (finalTaxBefore calcs2025) 0))
  else 0.

(** [revenueGrowth2024] and [revenueGrowth2025] of [renderPage2], for the
    years [previous] and [next]: the later year is read only when the
    earlier revenue is truthy. *)
Definition revenueGrowth (calculations : gmap Z CalculationResult)
    (previous next : Z) : Completion Q :=
  p ← member (calculations !! previous);
  if truthy (annualizedRevenue p) then
    n ← member (calculations !! next);
    mret ((fieldOr (annualizedRevenue n) 0 - fieldOr (annualizedRevenue p) 0)
          / fieldOr (annualizedRevenue p) 1 * 100)
  else mret 0.





End Ui.

(** The bar of a charted value in [renderMultiMetricComparisonChart] of
    the two earlier revisions, as a percentage of the chart's height. *)
Module UiMillions.


End UiMillions.

(** ** Vocabulary of the statements about the component *)

(** Every selection the result view needs has been made: an entity type,
    a settlement month that is not 0, a credit type, and a nonzero rate
    when the credit type asks for one. *)
Definition ready (s : Ui.State) : Prop :=
  Ui.entityType s <> None /\
  (exists m, Ui.settlementMonth s = Some m /\ ~ m == 0) /\
  Ui.taxCreditType s <> None /\
  (Ui.taxCreditType s = Some Ui.CreditStartup \/
   Ui.taxCreditType s = Some Ui.CreditSpecial ->
   ~ Ui.taxCreditRate s == 0).

(** The state holds an object for each of the three years. *)
Definition hasYears (s : Ui.State) : Prop :=
  Forall (fun year => is_Some (Ui.yearsData s !! year)) Ui.YEARS.

(** The fields of a result that are amounts of money: all but
    [safeProfit] and [profitMargin], which depend on the industry. *)
Definition amountFields : list (CalculationResult -> option number) :=
  take 25 resultFields.

(** The highest rate of the table of an entity type. *)
Definition topRate (entityType : EntityTag) : Q :=
  match entityType with
  | Individual => 0.45
  | Corporate => 0.24
  end.

(** A state in which a corporation has chosen nine settlement months,
    local tax and no credit, and has filled in nothing yet. *)
Definition selectedState : Ui.State :=
  {| Ui.viewMode := Ui.ViewInput; Ui.currentPage := 1%Z;
     Ui.companyName := ""; Ui.entityType := Some Corporate;
     Ui.includeLocalTax := true; Ui.settlementMonth := Some 9;
     Ui.industry := "제조업";
     Ui.yearsData := Ui.yearsData Ui.initialState;
     Ui.taxCreditType := Some Ui.CreditNone; Ui.taxCreditRate := 0;
     Ui.aiAnalysis := ""; Ui.isLoadingAnalysis := false |}.

(** The selected state once its three year objects are gone. *)
Definition emptiedState : Ui.State :=
  {| Ui.viewMode := Ui.ViewInput; Ui.currentPage := 1%Z;
     Ui.companyName := ""; Ui.entityType := Some Corporate;
     Ui.includeLocalTax := true; Ui.settlementMonth := Some 9;
     Ui.industry := "제조업"; Ui.yearsData := ∅;
     Ui.taxCreditType := Some Ui.CreditNone; Ui.taxCreditRate := 0;
     Ui.aiAnalysis := ""; Ui.isLoadingAnalysis := false |}.

(** Inputs in range: no field is the literal [Infinity] or reads as a
    number above 10^300 in magnitude, and the month count is not positive
    or is at least 1.  The factor is then at most 12 and every figure of
    the calculator stays below 10^303, far from where a double overflows,
    so that none is an infinity or [NaN]. *)
Definition inRange (data : YearData) (settlementMonth : Q) : Prop :=
  Forall (fun field : YearData -> string =>
            StrInfinityLiteral (trim (bytes (field data))) = false /\
            Qabs (orZero (Number (field data))) <= 10 ^ 300)
         [revenue; cogs; sga; nonOpIncome; nonOpExpense; additionalExpenses] /\
  (settlementMonth <= 0 \/ 1 <= settlementMonth).

(** * Properties of the calculator in exact arithmetic *)

(** ** Comparisons *)

Lemma Qle_bool_false (x y : Q) : Qle_bool x y = false -> y < x.
Proof.
  intros H. apply Qnot_le_lt. intros Hle.
  apply Qle_bool_iff in Hle. congruence.
Qed.

Lemma withinLimit_true (income : Q) (l : Limit) :
  withinLimit income l = true <-> leLimit income l.
Proof.
  destruct l as [q|]; cbn.
  - apply Qle_bool_iff.
  - tauto.
Qed.

Lemma withinLimit_false (income : Q) (l : Limit) :
  withinLimit income l = false <-> ~ leLimit income l.
Proof.
  rewrite <- withinLimit_true.
  destruct (withinLimit income l); split; congruence.
Qed.

Lemma max0_nonneg (x : Q) : 0 <= max0 x.
Proof.
  unfold max0. destruct (Qle_bool x 0) eqn:H.
  - lra.
  - apply Qle_bool_false in H. lra.
Qed.

Lemma max0_mono (x y : Q) : x <= y -> max0 x <= max0 y.
Proof.
  intros Hxy. unfold max0.
  destruct (Qle_bool x 0) eqn:Hx, (Qle_bool y 0) eqn:Hy;
    try apply Qle_bool_iff in Hx; try apply Qle_bool_iff in Hy;
    try apply Qle_bool_false in Hx; try apply Qle_bool_false in Hy; lra.
Qed.

Lemma max0_proper (x y : Q) : x == y -> max0 x == max0 y.
Proof.
  intros H. apply Qle_antisym; apply max0_mono; lra.
Qed.

(** ** The bracket loop *)
Section BracketLoop.

Variable income : Q.

(** What the loop returns is the bracket the specification selects, if
    the fallback is the last entry of the table. *)
Lemma scanBrackets_spec (brackets : list TaxBracket)
      (fallback b : option TaxBracket) :
  scanBrackets income brackets fallback = b ->
  (exists pre b0 post,
      b = Some b0 /\ brackets = pre ++ b0 :: post /\
      Forall (fun b' => ~ leLimit income (limit b')) pre /\
      leLimit income (limit b0))
  \/ (Forall (fun b' => ~ leLimit income (limit b')) brackets /\
      b = fallback).
Proof.
  revert b. induction brackets as [|hd rest IH]; intros b Hscan.
  - right. cbn in Hscan. split; [constructor | congruence].
  - cbn in Hscan. destruct (withinLimit income (limit hd)) eqn:Hhd.
    + left. exists [], hd, rest. repeat split; [congruence | constructor |].
      now apply withinLimit_true.
    + apply withinLimit_false in Hhd.
      destruct (IH b Hscan) as [(pre & b0 & post & -> & -> & Hpre & Hb0)|[Hall ->]].
      * left. exists (hd :: pre), b0, post.
        repeat split; [constructor; assumption | assumption].
      * right. split; [constructor; assumption | reflexivity].
Qed.

Lemma scanBrackets_Selected (brackets : list TaxBracket) (b : TaxBracket) :
  scanBrackets income brackets (last brackets) = Some b ->
  Selected income brackets b.
Proof.
  intros Hscan.
  destruct (scanBrackets_spec _ _ _ Hscan)
    as [(pre & b0 & post & Hb & Hbr & Hpre & Hb0)|[Hall Hlast]].
  - injection Hb as <-. now apply (Selected_first _ _ pre b post).
  - now apply Selected_last.
Qed.

(** The loop finds a bracket whenever the fallback is one. *)
Lemma scanBrackets_is_Some (brackets : list TaxBracket)
      (fallback : option TaxBracket) :
  is_Some fallback -> is_Some (scanBrackets income brackets fallback).
Proof.
  intros Hfb. induction brackets as [|hd rest IH]; cbn; [assumption|].
  destruct (withinLimit income (limit hd)); [eexists; reflexivity | assumption].
Qed.

End BracketLoop.

(** ** Schedules whose pieces join up are monotone *)
Section Schedule.

Lemma joined_head_within (lo : Q) (b : TaxBracket) (rest : list TaxBracket) :
  joined lo (b :: rest) -> withinLimit lo (limit b) = true.
Proof.
  cbn. intros [_ H]. destruct rest as [|b' rest'].
  - now rewrite H.
  - destruct H as (L & -> & Hlo & _). cbn. now apply Qle_bool_iff.
Qed.

Lemma pieceTax_mono (brackets : list TaxBracket) :
  forall (lo : Q) (fallback : option TaxBracket) (x y : Q),
    joined lo brackets -> x <= y ->
    pieceTax x brackets fallback <= pieceTax y brackets fallback.
Proof.
  induction brackets as [|b rest IH]; intros lo fallback x y J Hxy.
  - destruct J.
  - pose proof J as [Hrate Hrest]. cbn in Hrest.
    unfold pieceTax. cbn [scanBrackets].
    destruct rest as [|b' rest'].
    + rewrite Hrest. cbn [withinLimit]. nra.
    + destruct Hrest as (L & HL & Hlo & Hagree & J').
      rewrite HL. cbn [withinLimit].
      pose proof (IH L fallback) as IHL.
      destruct (Qle_bool x L) eqn:Hx, (Qle_bool y L) eqn:Hy.
      * nra.
      * apply Qle_bool_iff in Hx. apply Qle_bool_false in Hy.
        specialize (IHL L y J' ltac:(lra)).
        unfold pieceTax in IHL at 1. cbn [scanBrackets] in IHL.
        rewrite (joined_head_within _ _ _ J') in IHL.
        fold (pieceTax y (b' :: rest') fallback).
        assert (x * rate b - deduction b <= L * rate b - deduction b) by nra.
        lra.
      * apply Qle_bool_false in Hx. apply Qle_bool_iff in Hy. lra.
      * now apply IHL.
Qed.

End Schedule.

(** ** The two fixed tables *)

Ltac join_bracket :=
  split; [lra | eexists; split; [reflexivity | split; [lra | split; [lra |]]]].

Lemma INDIVIDUAL_joined : joined 0 INDIVIDUAL_TAX_BRACKETS.
Proof.
  unfold INDIVIDUAL_TAX_BRACKETS. cbn [joined limit rate deduction].
  do 7 join_bracket. split; [lra | reflexivity].
Qed.

Lemma CORPORATE_joined : joined 0 CORPORATE_TAX_BRACKETS.
Proof.
  unfold CORPORATE_TAX_BRACKETS. cbn [joined limit rate deduction].
  do 3 join_bracket. split; [lra | reflexivity].
Qed.

Lemma bracketsOf_joined (e : EntityTag) : joined 0 (bracketsOf e).
Proof. destruct e; [apply INDIVIDUAL_joined | apply CORPORATE_joined]. Qed.

Lemma bracketsOf_last (e : EntityTag) : is_Some (last (bracketsOf e)).
Proof. destruct e; eexists; reflexivity. Qed.

(** ** [calculateTax] *)

Lemma taxOf_eq (e : EntityTag) (income : Q) :
  taxOf e income =
  if Qle_bool income 0 then 0
  else pieceTax income (bracketsOf e) (last (bracketsOf e)).
Proof.
  unfold taxOf, App.calculateTax, pieceTax.
  destruct (Qle_bool income 0); [reflexivity|].
  change (match e with
          | Individual => INDIVIDUAL_TAX_BRACKETS
          | Corporate => CORPORATE_TAX_BRACKETS
          end) with (bracketsOf e).
  destruct (scanBrackets income (bracketsOf e) (last (bracketsOf e)));
    reflexivity.
Qed.

(** [calculateTax] completes normally on every income. *)
Lemma calculateTax_total (e : EntityTag) (income : Q) :
  App.calculateTax e income = Normal (taxOf e income).
Proof.
  unfold taxOf, App.calculateTax.
  destruct (Qle_bool income 0); [reflexivity|].
  change (match e with
          | Individual => INDIVIDUAL_TAX_BRACKETS
          | Corporate => CORPORATE_TAX_BRACKETS
          end) with (bracketsOf e).
  destruct (scanBrackets_is_Some income (bracketsOf e) _ (bracketsOf_last e))
    as [b ->].
  reflexivity.
Qed.

Lemma pieceTax_zero (e : EntityTag) :
  pieceTax 0 (bracketsOf e) (last (bracketsOf e)) == 0.
Proof. destruct e; vm_compute; reflexivity. Qed.

Lemma taxOf_nonneg (e : EntityTag) (income : Q) : 0 <= taxOf e income.
Proof.
  rewrite taxOf_eq. destruct (Qle_bool income 0) eqn:H; [lra|].
  apply Qle_bool_false in H.
  pose proof (pieceTax_mono (bracketsOf e) 0 (last (bracketsOf e)) 0 income
                (bracketsOf_joined e) ltac:(lra)) as Hmono.
  pose proof (pieceTax_zero e). lra.
Qed.

Lemma taxOf_mono (e : EntityTag) (x y : Q) :
  x <= y -> taxOf e x <= taxOf e y.
Proof.
  intros Hxy. pose proof (taxOf_nonneg e y) as Hy.
  rewrite (taxOf_eq e y) in *. rewrite (taxOf_eq e x).
  destruct (Qle_bool x 0) eqn:Hx0; [destruct (Qle_bool y 0); lra|].
  apply Qle_bool_false in Hx0.
  destruct (Qle_bool y 0) eqn:Hy0.
  - apply Qle_bool_iff in Hy0. lra.
  - apply (pieceTax_mono _ 0); [apply bracketsOf_joined | assumption].
Qed.

#[local] Instance taxOf_proper : Proper (eq ==> Qeq ==> Qeq) taxOf.
Proof.
  intros e ? <- x y Hxy. apply Qle_antisym; apply taxOf_mono; lra.
Qed.

#[local] Instance max0_Proper : Proper (Qeq ==> Qeq) max0.
Proof. intros x y Hxy. now apply max0_proper. Qed.

(** ** Running [calculateAllMetrics] *)

Lemma marginFor_total (industry : string) (e : EntityTag) :
  (if ToBoolean (Get INDUSTRY_PROFIT_MARGINS industry)
   then marginFor (Get INDUSTRY_PROFIT_MARGINS industry) e
   else mret (Some (Fin 0)))
  = Normal (marginOf industry e).
Proof.
  unfold marginOf. destruct (Get INDUSTRY_PROFIT_MARGINS industry); reflexivity.
Qed.

(** Unfold a call with a set entity type down to the record it returns. *)
Ltac run_metrics :=
  cbv beta zeta delta [App.calculateAllMetrics];
  cbv beta iota;
  repeat first
    [ rewrite calculateTax_total
    | rewrite marginFor_total
    | progress cbn [mbind mret Completion_bind Completion_ret] ].

(** A set entity type always yields a record. *)
Lemma calculateAllMetrics_total (data : YearData) (settlementMonth : Q)
      (entityType : EntityType) (includeLocalTax : bool) (taxCreditRate : Q)
      (industry : string) :
  exists r,
    App.calculateAllMetrics data settlementMonth entityType includeLocalTax
      taxCreditRate industry = Normal r.
Proof.
  destruct entityType as [e|].
  - run_metrics. eexists. reflexivity.
  - eexists. reflexivity.
Qed.

(** ** The end-to-end scenario *)

(** C1.  With revenue 100,000,000, cost of goods sold 40,000,000, selling
    and administrative expenses 20,000,000, non-operating income 1,000,000,
    non-operating expense 500,000 and additional expenses 1,000,000, twelve
    settlement months, an individual, no local tax, no credit, and an
    industry of the table whose individual margin is 0.117, the raw-unit
    [calculateAllMetrics] returns gross profit 60,000,000, operating income
    40,000,000, net income 40,500,000 before and 39,500,000 after the
    adjustment, base and final tax after the adjustment 4,440,000 and safe
    profit 11,700,000. *)
Theorem end_to_end_scenario (industry : string) (m : ProfitMargin) :
  INDUSTRY_PROFIT_MARGINS !! industry = Some m ->
  individual m == 0.117 ->
  exists r,
    App.calculateAllMetrics scenario 12 (Some Individual) false 0 industry
    = Normal r /\
    isNum (grossProfit r) 60000000 /\
    isNum (operatingIncome r) 40000000 /\
    isNum (currentNetIncomeBeforeAdjustment r) 40500000 /\
    isNum (currentNetIncomeAfterAdjustment r) 39500000 /\
    isNum (baseTaxAfter r) 4440000 /\
    isNum (finalTaxAfter r) 4440000 /\
    isNum (safeProfit r) 11700000.
Proof.
  intros Hlookup Hmargin. run_metrics.
  eexists. split; [reflexivity|].
  unfold marginOf, Get. rewrite Hlookup.
  cbn [grossProfit operatingIncome currentNetIncomeBeforeAdjustment
       currentNetIncomeAfterAdjustment baseTaxAfter finalTaxAfter safeProfit
       isNum ToNumber mul].
  repeat split; try (vm_compute; reflexivity).
  rewrite Hmargin. vm_compute. reflexivity.
Qed.

Lemma end_to_end_scenario_witness :
  exists r,
    App.calculateAllMetrics scenario 12 (Some Individual) false 0 "도소매업"
    = Normal r /\
    isNum (grossProfit r) 60000000 /\
    isNum (operatingIncome r) 40000000 /\
    isNum (currentNetIncomeBeforeAdjustment r) 40500000 /\
    isNum (currentNetIncomeAfterAdjustment r) 39500000 /\
    isNum (baseTaxAfter r) 4440000 /\
    isNum (finalTaxAfter r) 4440000 /\
    isNum (safeProfit r) 11700000.
Proof.
  apply (end_to_end_scenario "도소매업"
           {| individual := 0.117; corporate := 0.045 |}).
  - vm_compute. reflexivity.
  - reflexivity.
Defined.

(** ** Bracket selection *)

(** C2.  [calculateTax] returns 0 on any income that is not positive; on a
    positive income it applies [income * rate - deduction] for the first
    bracket, in table order, whose upper limit is at least the income, and
    the loop falls back to the last bracket of a table when no limit is.  In
    the individual table an income of exactly 14,000,000 is taxed in the
    first bracket, at 840,000, and 14,000,001 in the second, at
    0.15 * 14,000,001 - 1,260,000. *)
Theorem bracket_selection (e : EntityTag) (income : Q) :
  (income <= 0 -> App.calculateTax e income = Normal 0) /\
  (0 < income ->
   exists b, Selected income (bracketsOf e) b /\
             App.calculateTax e income
             = Normal (income * rate b - deduction b)) /\
  (forall (brackets : list TaxBracket) (b : TaxBracket),
      scanBrackets income brackets (last brackets) = Some b ->
      Selected income brackets b) /\
  (scanBrackets 14000000 INDIVIDUAL_TAX_BRACKETS (last INDIVIDUAL_TAX_BRACKETS)
   = INDIVIDUAL_TAX_BRACKETS !! 0%nat /\
   exists t, App.calculateTax Individual 14000000 = Normal t /\ t == 840000) /\
  (scanBrackets 14000001 INDIVIDUAL_TAX_BRACKETS (last INDIVIDUAL_TAX_BRACKETS)
   = INDIVIDUAL_TAX_BRACKETS !! 1%nat /\
   exists t, App.calculateTax Individual 14000001 = Normal t /\
             t == 0.15 * 14000001 - 1260000).
Proof.
  split; [|split; [|split; [|split]]].
  - intros Hle. unfold App.calculateTax.
    apply Qle_bool_iff in Hle. now rewrite Hle.
  - intros Hpos. unfold App.calculateTax.
    destruct (Qle_bool income 0) eqn:H0.
    { apply Qle_bool_iff in H0. lra. }
    change (match e with
            | Individual => INDIVIDUAL_TAX_BRACKETS
            | Corporate => CORPORATE_TAX_BRACKETS
            end) with (bracketsOf e).
    destruct (scanBrackets_is_Some income (bracketsOf e) _ (bracketsOf_last e))
      as [b Hb].
    exists b. split.
    + now apply scanBrackets_Selected.
    + now rewrite Hb.
  - apply scanBrackets_Selected.
  - split; [reflexivity|]. eexists. split; reflexivity.
  - split; [reflexivity|]. eexists. split; reflexivity.
Qed.

Lemma bracket_selection_witness :
  App.calculateTax Corporate (-5) = Normal 0 /\
  (exists b, Selected 250000000 (bracketsOf Corporate) b /\
             App.calculateTax Corporate 250000000
             = Normal (250000000 * rate b - deduction b)).
Proof.
  split.
  - apply (proj1 (bracket_selection Corporate (-5))). lra.
  - apply (proj1 (proj2 (bracket_selection Corporate 250000000))). lra.
Defined.

(** Read the fields of an explicit record. *)
Ltac fields :=
  cbn [numRevenue numCogs grossProfit numSga operatingIncome numNonOpIncome
       numNonOpExpense numAdditionalExpenses currentNetIncomeBeforeAdjustment
       currentNetIncomeAfterAdjustment annualizedRevenue annualizedCogs
       annualizedGrossProfit annualizedSga annualizedOperatingIncome
       annualizedNonOpIncome annualizedNonOpExpense
       annualizedNetIncomeBeforeAdjustment annualizedNetIncomeAfterAdjustment
       baseTaxAfter taxCreditAmountAfter taxAfterCredit finalTaxBefore
       finalTaxAfter taxSavings safeProfit profitMargin
       isNum rel2 rel3].

(** Name the parsed inputs, the annualization factor and the taxes, so
    that what is left is arithmetic over variables. *)
Ltac name_inputs :=
  repeat match goal with
         | |- context [orZero (Number ?s)] =>
             let x := fresh "x" in
             generalize (orZero (Number s)); intros x
         | |- context [if positive ?m then ?a else ?b] =>
             let f := fresh "f" in
             generalize (if positive m then a else b); intros f
         end.

Ltac name_taxes :=
  repeat match goal with
         | |- context [taxOf ?e ?i] =>
             let t := fresh "t" in
             generalize (taxOf e i); intros t
         end.

Ltac name_atoms := name_inputs; name_taxes.

(** ** Tax savings in exact arithmetic *)




(** ** Monotonicity of the bracket tax *)

(** C9.  For the individual and for the corporate table, [calculateTax] is
    monotone nondecreasing in the income and never negative, and at every
    finite limit of a table the bracket ending there and the next one give
    the same value of [income * rate - deduction]. *)
Theorem bracket_tax_monotone (e : EntityTag) (x y : Q) :
  (x <= y ->
   exists tx ty,
     App.calculateTax e x = Normal tx /\
     App.calculateTax e y = Normal ty /\
     tx <= ty) /\
  (exists t, App.calculateTax e x = Normal t /\ 0 <= t) /\
  Forall agreeAtLimit (adjacent (bracketsOf e)).
Proof.
  split; [|split].
  - intros Hxy. exists (taxOf e x), (taxOf e y).
    split; [apply calculateTax_total|].
    split; [apply calculateTax_total|].
    now apply taxOf_mono.
  - exists (taxOf e x). split; [apply calculateTax_total | apply taxOf_nonneg].
  - destruct e; repeat constructor; vm_compute; reflexivity.
Qed.

Lemma bracket_tax_monotone_witness :
  exists tx ty,
    App.calculateTax Individual 49999999 = Normal tx /\
    App.calculateTax Individual 50000001 = Normal ty /\
    tx <= ty.
Proof.
  apply (proj1 (bracket_tax_monotone Individual 49999999 50000001)).
  vm_compute. discriminate.
Defined.

(** ** Blank input *)

Lemma blank_reads_zero (s : string) :
  blank s \/ nonNumeric s -> orZero (Number s) = orZero (Number "0").
Proof.
  intros [Hblank|[Hnan _]].
  - unfold Number. unfold blank in Hblank. now rewrite Hblank.
  - now rewrite Hnan.
Qed.

(** Replacing a blank or non-numeric field by ["0"] changes nothing. *)
Lemma blank_field_is_zero (f : Field) (s : string) (data : YearData)
      (settlementMonth : Q) (entityType : EntityType)
      (includeLocalTax : bool) (taxCreditRate : Q) (industry : string) :
  blank s \/ nonNumeric s ->
  App.calculateAllMetrics (setField f s data) settlementMonth entityType
    includeLocalTax taxCreditRate industry
  = App.calculateAllMetrics (setField f "0" data) settlementMonth entityType
      includeLocalTax taxCreditRate industry.
Proof.
  intros Hs. apply blank_reads_zero in Hs.
  destruct entityType as [e|]; [|reflexivity].
  destruct f; unfold App.calculateAllMetrics;
    cbn [setField revenue cogs sga nonOpIncome nonOpExpense
         additionalExpenses];
    rewrite Hs; reflexivity.
Qed.

Example blank_revenue_is_zero :
  App.calculateAllMetrics (setField Frevenue "  " scenario) 12
    (Some Corporate) true 0.5 "건설업"
  = App.calculateAllMetrics (setField Frevenue "0" scenario) 12
      (Some Corporate) true 0.5 "건설업".
Proof. apply blank_field_is_zero. left. reflexivity. Qed.

Example garbled_cogs_is_zero :
  App.calculateAllMetrics (setField Fcogs "12,5" scenario) 12
    (Some Corporate) true 0.5 "건설업"
  = App.calculateAllMetrics (setField Fcogs "0" scenario) 12
      (Some Corporate) true 0.5 "건설업".
Proof.
  apply blank_field_is_zero. right. split; vm_compute; reflexivity.
Qed.


(** * Properties of the calculator over binary64 *)

(** ** Doubles *)

Lemma double_is_nan_spec (x : float) : is_nan x = true <-> Prim2SF x = S754_nan.
Proof.
  unfold is_nan. rewrite FloatAxioms.eqb_spec.
  destruct (Prim2SF x) as [s|s| |s m e]; cbn.
  - split; discriminate.
  - destruct s; cbn; split; discriminate.
  - split; reflexivity.
  - unfold SFeqb, SFcompare. rewrite Z.compare_refl, Pos.compare_cont_refl.
    destruct s; cbn; split; discriminate.
Qed.

(** A finite double is a zero or has a significand and an exponent. *)
Lemma double_finite_cases (x : float) :
  is_finite x = true ->
  (exists s, Prim2SF x = S754_zero s) \/
  (exists s m e, Prim2SF x = S754_finite s m e).
Proof.
  unfold is_finite, is_infinity. intros H.
  apply negb_true_iff, orb_false_iff in H. destruct H as [Hnan Hinf].
  rewrite FloatAxioms.eqb_spec, abs_spec in Hinf.
  destruct (Prim2SF x) as [s|s| |s m e] eqn:E.
  - left. eexists. reflexivity.
  - discriminate Hinf.
  - apply double_is_nan_spec in E. congruence.
  - right. do 3 eexists. reflexivity.
Qed.

(** [x === 0] holds of the two zeros only. *)
Lemma double_zero_cases (x : float) :
  (x =? 0)%float = true -> x = 0%float \/ x = (-0)%float.
Proof.
  rewrite FloatAxioms.eqb_spec. intros H.
  rewrite <- (SF2Prim_Prim2SF x).
  destruct (Prim2SF x) as [s|s| |s m e].
  - destruct s; [right|left]; reflexivity.
  - destruct s; discriminate H.
  - discriminate H.
  - destruct s; discriminate H.
Qed.

Lemma double_eqb_refl (x : float) : is_nan x = false -> (x =? x)%float = true.
Proof. unfold is_nan. intros H. now apply negb_false_iff in H. Qed.

(** A finite number times zero is a zero. *)
Lemma double_mul_zero (x : float) :
  is_finite x = true -> (x * 0 =? 0)%float = true.
Proof.
  intros H. rewrite FloatAxioms.eqb_spec, mul_spec.
  destruct (double_finite_cases x H) as [[s ->]|(s & m & e & ->)]; reflexivity.
Qed.

(** A finite number minus itself is [+0]. *)
Lemma double_sub_diag (x : float) :
  is_finite x = true -> (x - x)%float = 0%float.
Proof.
  intros H. apply Prim2SF_inj. rewrite sub_spec.
  destruct (double_finite_cases x H) as [[s ->]|(s & m & e & ->)].
  - destruct s; reflexivity.
  - unfold SF64sub, SFsub. rewrite Z.sub_diag. reflexivity.
Qed.

Lemma double_mul_comm (x y : float) : (x * y)%float = (y * x)%float.
Proof.
  apply Prim2SF_inj. rewrite !mul_spec.
  destruct (Prim2SF x) as [s|s| |s m e], (Prim2SF y) as [s'|s'| |s' m' e'];
    cbn; try reflexivity; try (now rewrite xorb_comm).
  now rewrite xorb_comm, Pos.mul_comm, Z.add_comm.
Qed.

(** Shifting out the zeros a shift brought in is exact. *)
Lemma iter_shr_1_exact (k m : BinNums.positive) :
  SpecFloat.iter_pos shr_1 k
    {| shr_m := Zpos (Pos.iter xO m k); shr_r := false; shr_s := false |}
  = {| shr_m := Zpos m; shr_r := false; shr_s := false |}.
Proof.
  revert m. induction k as [k IH|k IH|]; intros m;
    cbn [SpecFloat.iter_pos Pos.iter].
  - cbn [shr_1 orb]. rewrite IH, IH. reflexivity.
  - rewrite IH, IH. reflexivity.
  - reflexivity.
Qed.

Lemma digits2_iter_xO (k m : BinNums.positive) :
  Zpos (digits2_pos (Pos.iter xO m k)) = (Zpos (digits2_pos m) + Zpos k)%Z.
Proof.
  revert m. induction k using Pos.peano_ind; intros m.
  - cbn. lia.
  - rewrite Pos.iter_succ. cbn [digits2_pos]. rewrite Pos2Z.inj_succ, IHk. lia.
Qed.

(** Rounding leaves a number alone that is a double already. *)
Lemma round_exact (s : bool) (m : BinNums.positive) (e : Z)
      (k : BinNums.positive) :
  bounded prec emax m e = true ->
  binary_round_aux prec emax s (Zpos (Pos.iter xO m k)) (e - Zpos k) loc_Exact
  = S754_finite s m e.
Proof.
  intros Hb. unfold bounded in Hb. apply andb_true_iff in Hb.
  destruct Hb as [Hc He]. unfold canonical_mantissa in Hc.
  apply Z.eqb_eq in Hc.
  unfold binary_round_aux, shr_fexp.
  cbn [Zdigits2 shr_record_of_loc].
  rewrite digits2_iter_xO.
  replace (Z.pos (digits2_pos m) + Z.pos k + (e - Z.pos k))%Z
    with (Z.pos (digits2_pos m) + e)%Z by lia.
  rewrite Hc.
  replace (e - (e - Z.pos k))%Z with (Zpos k) by lia.
  cbn [shr]. rewrite iter_shr_1_exact.
  cbn [shr_m loc_of_shr_record round_nearest_even Zdigits2 shr_record_of_loc].
  replace (e - Z.pos k + Z.pos k)%Z with e by lia.
  rewrite Hc, Z.sub_diag. cbn [shr shr_m]. rewrite He. reflexivity.
Qed.

(** [x * 1] is [x], for every double. *)
Lemma double_mul_one (x : float) : (x * 1)%float = x.
Proof.
  apply Prim2SF_inj. rewrite mul_spec.
  pose proof (Prim2SF_valid x) as Hv.
  destruct (Prim2SF x) as [s|s| |s m e].
  - destruct s; reflexivity.
  - destruct s; reflexivity.
  - reflexivity.
  - change (Prim2SF 1)
      with (S754_finite false (Pos.iter xO 1%positive 52) (-52)).
    unfold SF64mul, SFmul. rewrite xorb_false_r.
    replace (m * Pos.iter xO 1%positive 52)%positive with (Pos.iter xO m 52).
    2:{ cbn [Pos.iter]. rewrite !Pos.mul_xO_r, Pos.mul_1_r. reflexivity. }
    change (e + -52)%Z with (e - 52)%Z.
    apply round_exact. exact Hv.
Qed.

(** [Number] reads a numeral as the literal of the same digits is read:
    to the nearest double, ties to even, down to the subnormals and up to
    the infinities. *)
Example Number_rounds :
  Forall (fun p : string * float =>
            PrimFloat.Leibniz.eqb (Double.Number (fst p)) (snd p) = true)
    [ ("0.1", 0.1); ("8.2", 8.2); ("0.117", 0.117); ("1.1", 1.1);
      ("100000001", 100000001); ("  12.5e-3 ", 0.0125); ("+.5", 0.5);
      ("5.", 5); ("0x1F", 31); ("", 0); ("-0", -0); ("1e-400", 0);
      ("9007199254740993", 9007199254740992);
      ("9007199254740995", 9007199254740996);
      ("5e-324", 0x1p-1074); ("2.4703282292062327e-324", 0);
      ("2.4703282292062328e-324", 0x1p-1074);
      ("2.2250738585072011e-308", 0x0.fffffffffffffp-1022);
      ("1.7976931348623157e308", 0x1.fffffffffffffp+1023);
      ("1.7976931348623158e308", 0x1.fffffffffffffp+1023);
      ("1.7976931348623159e308", infinity); ("1e400", infinity);
      ("-1e400", neg_infinity); ("Infinity", infinity);
      ("-Infinity", neg_infinity) ]%float /\
  Forall (fun s => is_nan (Double.Number s) = true)
    [ "abc"; "12,5"; "infinity"; "-0x10"; "1e"; "." ]%string.
Proof. split; repeat constructor. Qed.

(** What [n || 0] returns is never [NaN]. *)
Lemma orZero_not_nan (n : float) : is_nan (Double.orZero n) = false.
Proof.
  unfold Double.orZero. destruct (is_nan n) eqn:Hn; [reflexivity|].
  cbn [orb]. destruct (n =? 0)%float; [reflexivity | exact Hn].
Qed.

(** Subtracting from either zero gives the same number. *)
Lemma sub_from_zero (z a : float) :
  (z =? 0)%float = true -> is_nan a = false ->
  (z - a =? 0 - a)%float = true.
Proof.
  intros Hz Ha.
  assert (Hna : Prim2SF a <> S754_nan).
  { intros E. apply double_is_nan_spec in E. congruence. }
  destruct (double_zero_cases z Hz) as [->| ->].
  - apply double_eqb_refl. apply not_true_is_false. intros Hn.
    apply double_is_nan_spec in Hn. rewrite sub_spec in Hn.
    destruct (Prim2SF a) as [s|s| |s m e]; try discriminate Hn.
    + destruct s; discriminate Hn.
    + congruence.
  - rewrite FloatAxioms.eqb_spec, !sub_spec.
    change (Prim2SF (-0)) with (S754_zero true).
    change (Prim2SF 0) with (S754_zero false).
    destruct (Prim2SF a) as [s|s| |s m e]; try congruence.
    + destruct s; reflexivity.
    + destruct s; reflexivity.
    + cbn. unfold SFeqb, SFcompare.
      rewrite Z.compare_refl, Pos.compare_cont_refl.
      destruct s; reflexivity.
Qed.

(** [m === 0] fails the test [m > 0]. *)
Lemma zero_not_positive (m : float) :
  (m =? 0)%float = true -> (0 <? m)%float = false.
Proof. intros H. destruct (double_zero_cases m H) as [->| ->]; reflexivity. Qed.

(** ** Running the calculator *)

Lemma double_scan_is_Some (income : float) (brackets : list Double.TaxBracket)
      (d : option Double.TaxBracket) :
  is_Some d -> is_Some (Double.scanBrackets income brackets d).
Proof.
  intros Hd. induction brackets as [|b rest IH]; cbn; [exact Hd|].
  destruct (income <=? Double.limit b)%float; [eexists; reflexivity | exact IH].
Qed.

Lemma double_calculateTax_total (e : EntityTag) (income : float) :
  Double.App.calculateTax e income = Normal (Double.taxOf e income).
Proof.
  unfold Double.taxOf.
  destruct (Double.App.calculateTax e income) as [t|err] eqn:E; [reflexivity|].
  exfalso. unfold Double.App.calculateTax in E.
  destruct (income <=? 0)%float; [discriminate E|].
  match type of E with
  | context [Double.scanBrackets income ?l ?d] =>
      destruct (double_scan_is_Some income l d) as [b Hb];
      [destruct e; eexists; reflexivity | rewrite Hb in E; discriminate E]
  end.
Qed.

Lemma double_calculateTax_millions (e : EntityTag) (income : float) :
  Double.AppMillions.calculateTax e income = Normal (Double.taxOf e income).
Proof. exact (double_calculateTax_total e income). Qed.

Lemma double_marginFor_total (industry : string) (e : EntityTag) :
  (if ToBoolean (Get Double.INDUSTRY_PROFIT_MARGINS industry)
   then Double.marginFor (Get Double.INDUSTRY_PROFIT_MARGINS industry) e
   else mret (Some 0%float))
  = Normal (Double.marginOf industry e).
Proof.
  unfold Double.marginOf.
  destruct (Get Double.INDUSTRY_PROFIT_MARGINS industry); reflexivity.
Qed.

(** Unfold a call with a set entity type down to the record it returns. *)
Ltac run_double :=
  cbv beta zeta delta [Double.App.calculateAllMetrics
                       Double.AppMillions.calculateAllMetrics];
  cbv beta iota;
  repeat first
    [ rewrite double_calculateTax_millions
    | rewrite double_calculateTax_total
    | rewrite double_marginFor_total
    | progress cbn [mbind mret Completion_bind Completion_ret] ].

Ltac double_fields :=
  cbn [Double.numRevenue Double.numCogs Double.grossProfit Double.numSga
       Double.operatingIncome Double.numNonOpIncome Double.numNonOpExpense
       Double.numAdditionalExpenses Double.currentNetIncomeBeforeAdjustment
       Double.currentNetIncomeAfterAdjustment Double.annualizedRevenue
       Double.annualizedCogs Double.annualizedGrossProfit Double.annualizedSga
       Double.annualizedOperatingIncome Double.annualizedNonOpIncome
       Double.annualizedNonOpExpense
       Double.annualizedNetIncomeBeforeAdjustment
       Double.annualizedNetIncomeAfterAdjustment Double.baseTaxAfter
       Double.taxCreditAmountAfter Double.taxAfterCredit Double.finalTaxBefore
       Double.finalTaxAfter Double.taxSavings Double.safeProfit
       Double.profitMargin].


(** ** The figures no rounding touches

    On the end-to-end scenario and at the first limit of the individual
    table the doubles are the numbers of the exact arithmetic. *)
Example end_to_end_scenario_doubles :
  exists r,
    Double.App.calculateAllMetrics scenario 12 (Some Individual) false 0
      "도소매업" = Normal r /\
    Double.grossProfit r = Some 60000000%float /\
    Double.operatingIncome r = Some 40000000%float /\
    Double.currentNetIncomeBeforeAdjustment r = Some 40500000%float /\
    Double.currentNetIncomeAfterAdjustment r = Some 39500000%float /\
    Double.baseTaxAfter r = Some 4440000%float /\
    Double.finalTaxAfter r = Some 4440000%float /\
    Double.safeProfit r = Some 11700000%float.
Proof. vm_compute. eexists. repeat split. Qed.

Example bracket_boundary_doubles :
  Double.App.calculateTax Individual 14000000 = Normal 840000%float /\
  Double.App.calculateTax Individual 14000001
  = Normal (14000001 * 0.15 - 1260000)%float /\
  Double.App.calculateTax Individual 0 = Normal 0%float /\
  Double.App.calculateTax Individual (-1) = Normal 0%float.
Proof. repeat split. Qed.

(** ** Annualization *)

(** C3.  For every input, every month count and a set entity type (with
    an unset one the record has no fields), the six input lines of the
    result are the fields as parsed, the annualized income after the
    adjustment is the annualized income before it minus the additional
    expenses as parsed, which are never multiplied by the annualization
    factor, and each of the five other input lines, the gross profit and
    the operating income is annualized by multiplying it by that factor.
    The annualized income before the adjustment is the annualized
    operating income plus the annualized non-operating income minus the
    annualized non-operating expense, each operation rounding to the
    nearest double. *)
Theorem additional_expenses_flat (data : YearData) (settlementMonth : float)
    (e : EntityTag) (includeLocalTax : bool) (taxCreditRate : float)
    (industry : string) :
  let factor :=
    (if 0 <? settlementMonth then 12 / settlementMonth else 0)%float in
  exists r,
    Double.App.calculateAllMetrics data settlementMonth (Some e)
      includeLocalTax taxCreditRate industry = Normal r /\
    Double.parsedFrom data r /\
    (exists rev cost admin : float,
        Double.numRevenue r = Some rev /\
        Double.numCogs r = Some cost /\
        Double.numSga r = Some admin /\
        Double.grossProfit r = Some (rev - cost)%float /\
        Double.operatingIncome r = Some (rev - cost - admin)%float) /\
    Double.scaledBy factor (Double.numRevenue r) (Double.annualizedRevenue r) /\
    Double.scaledBy factor (Double.numCogs r) (Double.annualizedCogs r) /\
    Double.scaledBy factor (Double.numSga r) (Double.annualizedSga r) /\
    Double.scaledBy factor (Double.numNonOpIncome r)
      (Double.annualizedNonOpIncome r) /\
    Double.scaledBy factor (Double.numNonOpExpense r)
      (Double.annualizedNonOpExpense r) /\
    Double.scaledBy factor (Double.grossProfit r)
      (Double.annualizedGrossProfit r) /\
    Double.scaledBy factor (Double.operatingIncome r)
      (Double.annualizedOperatingIncome r) /\
    (exists income gain loss : float,
        Double.annualizedOperatingIncome r = Some income /\
        Double.annualizedNonOpIncome r = Some gain /\
        Double.annualizedNonOpExpense r = Some loss /\
        Double.annualizedNetIncomeBeforeAdjustment r
        = Some (income + gain - loss)%float) /\
    (exists before additional : float,
        Double.annualizedNetIncomeBeforeAdjustment r = Some before /\
        Double.numAdditionalExpenses r = Some additional /\
        Double.annualizedNetIncomeAfterAdjustment r
        = Some (before - additional)%float).
Proof.
  intros factor. run_double. eexists. split; [reflexivity|].
  unfold Double.parsedFrom, Double.scaledBy. double_fields. subst factor.
  repeat match goal with
         | |- _ /\ _ => split
         | |- exists _, _ => eexists
         | |- _ = _ => reflexivity
         end.
Qed.

(** With the revenue of the scenario raised by one and nine settlement
    months, the annualized income before the adjustment is not the
    period's income before the adjustment times the factor: the sum of
    the rounded products is 54000001.333333336, the product of the sum
    54000001.333333328. *)
Lemma net_income_not_scaled :
  exists r before annualized,
    Double.App.calculateAllMetrics (setField Frevenue "100000001" scenario) 9
      (Some Individual) false 0 "도소매업" = Normal r /\
    Double.currentNetIncomeBeforeAdjustment r = Some before /\
    Double.annualizedNetIncomeBeforeAdjustment r = Some annualized /\
    (annualized =? before * (12 / 9))%float = false.
Proof.
  run_double. do 3 eexists. split; [reflexivity|]. double_fields.
  split; [reflexivity|]. split; [reflexivity|]. vm_compute. reflexivity.
Qed.

(** Over six months the factor is 2: the income after the adjustment is
    annualized to 80,000,000, not to twice 39,500,000. *)
Example additional_expenses_asymmetry :
  exists r,
    Double.App.calculateAllMetrics scenario 6 (Some Individual) false 0
      "도소매업" = Normal r /\
    Double.currentNetIncomeAfterAdjustment r = Some 39500000%float /\
    Double.annualizedNetIncomeBeforeAdjustment r = Some 81000000%float /\
    Double.annualizedNetIncomeAfterAdjustment r = Some 80000000%float.
Proof. vm_compute. eexists. repeat split. Qed.

(** ** Credit and local tax *)

(** C5.  With a set entity type the credit is the base tax after the
    adjustment times the credit rate, the tax after the credit is the base
    tax minus the credit, and the final tax after the adjustment is the
    tax after the credit times the local tax multiplier (1.1 with local
    tax, 1 without), each operation rounding to the nearest double.  So
    with local tax the final tax is exactly 1.1 times what it is without,
    all else equal, and a credit rate of 1 makes it 0 whenever the base
    tax is a finite number. *)
Theorem final_tax_formula (data : YearData) (settlementMonth : float)
    (e : EntityTag) (includeLocalTax : bool) (taxCreditRate : float)
    (industry : string) :
  (exists r base,
      Double.App.calculateAllMetrics data settlementMonth (Some e)
        includeLocalTax taxCreditRate industry = Normal r /\
      Double.baseTaxAfter r = Some base /\
      Double.taxCreditAmountAfter r = Some (base * taxCreditRate)%float /\
      Double.taxAfterCredit r = Some (base - base * taxCreditRate)%float /\
      Double.finalTaxAfter r
      = Some ((base - base * taxCreditRate)
              * (if includeLocalTax then 1.1 else 1))%float) /\
  (exists r0 r1 without,
      Double.App.calculateAllMetrics data settlementMonth (Some e) false
        taxCreditRate industry = Normal r0 /\
      Double.App.calculateAllMetrics data settlementMonth (Some e) true
        taxCreditRate industry = Normal r1 /\
      Double.finalTaxAfter r0 = Some without /\
      Double.finalTaxAfter r1 = Some (1.1 * without)%float) /\
  (exists r,
      Double.App.calculateAllMetrics data settlementMonth (Some e)
        includeLocalTax 1 industry = Normal r /\
      (Double.finiteField (Double.baseTaxAfter r) ->
       Double.finalTaxAfter r = Some 0%float)).
Proof.
  split; [|split].
  - run_double. do 2 eexists. split; [reflexivity|]. double_fields.
    repeat split.
  - run_double. do 3 eexists. split; [reflexivity|]. split; [reflexivity|].
    double_fields. split; [reflexivity|].
    rewrite double_mul_one. f_equal. apply double_mul_comm.
  - run_double. eexists. split; [reflexivity|]. double_fields.
    intros (base & [= <-] & Hfinite).
    rewrite double_mul_one, (double_sub_diag _ Hfinite).
    destruct includeLocalTax; reflexivity.
Qed.

Lemma final_tax_formula_witness :
  exists r,
    Double.App.calculateAllMetrics scenario 12 (Some Individual) true 1
      "도소매업" = Normal r /\
    Double.finalTaxAfter r = Some 0%float.
Proof.
  destruct (proj2 (proj2 (final_tax_formula scenario 12 Individual true 1
                            "도소매업"))) as (r & Hr & Hzero).
  exists r. split; [exact Hr|]. apply Hzero.
  vm_compute in Hr. injection Hr as <-.
  eexists. split; reflexivity.
Defined.

(** With the figures of the scenario, ten settlement months and a credit
    of 0.3 the final tax after the adjustment is 3958500, and the base tax
    times [1 - 0.3] times 1 is 3958499.9999999995.  With a revenue of
    1.5e308 over eight months the base tax is [Infinity], and a credit rate
    of 1 leaves [NaN]. *)
Lemma final_tax_formula_rounds :
  (exists r base final,
      Double.App.calculateAllMetrics scenario 10 (Some Individual) false 0.3
        "도소매업" = Normal r /\
      Double.baseTaxAfter r = Some base /\
      Double.finalTaxAfter r = Some final /\
      (final =? base * (1 - 0.3) * 1)%float = false) /\
  (exists r final,
      Double.App.calculateAllMetrics (setField Frevenue "1.5e308" scenario) 8
        (Some Individual) false 1 "도소매업" = Normal r /\
      Double.finalTaxAfter r = Some final /\
      (final =? 0)%float = false).
Proof.
  split.
  - run_double. do 3 eexists. split; [reflexivity|]. double_fields.
    split; [reflexivity|]. split; [reflexivity|]. vm_compute. reflexivity.
  - run_double. do 2 eexists. split; [reflexivity|]. double_fields.
    split; [reflexivity|]. vm_compute. reflexivity.
Qed.

(** ** Zero settlement months *)

(** The figures of a month count of zero: a finite number times the
    factor 0 is a zero, and so is what the zeros add up to. *)
Lemma zero_lines (x : float) :
  is_finite x = true -> Double.strictEq (Some (x * 0)%float) 0.
Proof. intros H. eexists. split; [reflexivity | now apply double_mul_zero]. Qed.

Lemma zero_sum (a b c : float) :
  (a =? 0)%float = true -> (b =? 0)%float = true -> (c =? 0)%float = true ->
  (a + b - c =? 0)%float = true.
Proof.
  intros Ha Hb Hc.
  destruct (double_zero_cases a Ha) as [->| ->],
    (double_zero_cases b Hb) as [->| ->],
    (double_zero_cases c Hc) as [->| ->]; reflexivity.
Qed.

(** C8.  With a set entity type and a settlement month count of 0 the
    annualization factor takes the branch without a division and is 0;
    when the five parsed input lines other than the additional expenses,
    the gross profit and the operating income are finite numbers (none
    has overflowed to an infinity), every annualized field other than the
    income after the adjustment is 0, and the annualized income after the
    adjustment is 0 minus the additional expenses as parsed. *)
Theorem zero_settlement_months (data : YearData) (settlementMonth : float)
    (e : EntityTag) (includeLocalTax : bool) (taxCreditRate : float)
    (industry : string) :
  (settlementMonth =? 0)%float = true ->
  (0 <? settlementMonth)%float = false /\
  exists r,
    Double.App.calculateAllMetrics data settlementMonth (Some e)
      includeLocalTax taxCreditRate industry = Normal r /\
    (Forall Double.finiteField
       [Double.numRevenue r; Double.numCogs r; Double.numSga r;
        Double.numNonOpIncome r; Double.numNonOpExpense r;
        Double.grossProfit r; Double.operatingIncome r] ->
     Forall (fun f => Double.strictEq f 0)
       [Double.annualizedRevenue r; Double.annualizedCogs r;
        Double.annualizedGrossProfit r; Double.annualizedSga r;
        Double.annualizedOperatingIncome r; Double.annualizedNonOpIncome r;
        Double.annualizedNonOpExpense r;
        Double.annualizedNetIncomeBeforeAdjustment r] /\
     exists additional,
       Double.numAdditionalExpenses r = Some additional /\
       Double.strictEq (Double.annualizedNetIncomeAfterAdjustment r)
         (0 - additional)).
Proof.
  intros Hzero. pose proof (zero_not_positive _ Hzero) as Hpos.
  split; [exact Hpos|].
  run_double. rewrite Hpos.
  eexists. split; [reflexivity|]. double_fields.
  pose proof (orZero_not_nan (Double.Number (additionalExpenses data)))
    as Hadd.
  revert Hadd.
  generalize (Double.orZero (Double.Number (revenue data))),
    (Double.orZero (Double.Number (cogs data))),
    (Double.orZero (Double.Number (sga data))),
    (Double.orZero (Double.Number (nonOpIncome data))),
    (Double.orZero (Double.Number (nonOpExpense data))),
    (Double.orZero (Double.Number (additionalExpenses data))).
  intros rev cost admin gain loss additional Hadd Hfinite.
  repeat match goal with
         | H : Forall _ (_ :: _) |- _ => inversion_clear H
         | H : Double.finiteField (Some _) |- _ =>
             destruct H as (? & [= <-] & ?)
         end.
  assert (Hbefore :
            ((rev - cost - admin) * 0 + gain * 0 - loss * 0 =? 0)%float = true)
    by (apply zero_sum; now apply double_mul_zero).
  split.
  - repeat constructor; try (now apply zero_lines).
    eexists. split; [reflexivity | exact Hbefore].
  - eexists. split; [reflexivity|].
    eexists. split; [reflexivity|].
    now apply sub_from_zero.
Qed.

Lemma zero_settlement_months_witness :
  (0 <? 0)%float = false /\
  exists r,
    Double.App.calculateAllMetrics scenario 0 (Some Corporate) true 0.5
      "제조업" = Normal r /\
    Forall (fun f => Double.strictEq f 0)
      [Double.annualizedRevenue r; Double.annualizedCogs r;
       Double.annualizedGrossProfit r; Double.annualizedSga r;
       Double.annualizedOperatingIncome r; Double.annualizedNonOpIncome r;
       Double.annualizedNonOpExpense r;
       Double.annualizedNetIncomeBeforeAdjustment r] /\
    Double.strictEq (Double.annualizedNetIncomeAfterAdjustment r) (-1000000).
Proof.
  destruct (zero_settlement_months scenario 0 Corporate true 0.5 "제조업")
    as (Hfactor & r & Hr & Hzero); [reflexivity|].
  split; [exact Hfactor|]. exists r. split; [exact Hr|].
  vm_compute in Hr. injection Hr as <-.
  destruct Hzero as (Hlines & additional & [= <-] & Hafter).
  - repeat constructor; eexists; split; reflexivity.
  - split; [exact Hlines | exact Hafter].
Defined.

(** A revenue of 1e308 and a cost of goods sold of -1e308 are finite, the
    gross profit overflows to [Infinity], and with a month count of 0 the
    annualized gross profit is [Infinity * 0], which is [NaN] and not 0.
    A revenue that reads as [Infinity] does the same to the annualized
    revenue. *)
Lemma zero_months_overflow :
  (exists r x,
      Double.App.calculateAllMetrics
        {| revenue := "1e308"; cogs := "-1e308"; sga := "";
           nonOpIncome := ""; nonOpExpense := ""; additionalExpenses := "" |}
        0 (Some Corporate) false 0 "제조업" = Normal r /\
      Double.annualizedGrossProfit r = Some x /\
      (x =? 0)%float = false) /\
  (exists r x,
      Double.App.calculateAllMetrics (setField Frevenue "1e400" scenario)
        0 (Some Corporate) false 0 "제조업" = Normal r /\
      Double.annualizedRevenue r = Some x /\
      (x =? 0)%float = false).
Proof.
  split; run_double; do 2 eexists; (split; [reflexivity|]); double_fields;
    (split; [reflexivity|]); vm_compute; reflexivity.
Qed.

(** ** Tax savings in the arithmetic of the code *)


(** ** The two revisions *)

(** C4.  The two revisions agree up to the scaling of the inputs: for
    every settlement month count, entity type, local tax flag, credit rate
    and industry, the millions revision on a record returns what the
    raw-unit revision returns on a record whose six parsed values are
    those of the first times 1,000,000, the product the millions revision
    itself computes. *)
Theorem revisions_agree_up_to_scaling (data data' : YearData)
    (settlementMonth : float) (entityType : EntityType)
    (includeLocalTax : bool) (taxCreditRate : float) (industry : string) :
  Double.scaledInputs data data' ->
  Double.AppMillions.calculateAllMetrics data settlementMonth entityType
    includeLocalTax taxCreditRate industry
  = Double.App.calculateAllMetrics data' settlementMonth entityType
      includeLocalTax taxCreditRate industry.
Proof.
  intros Hscaled. destruct entityType as [e|]; [|reflexivity].
  unfold Double.scaledInputs in Hscaled.
  repeat match goal with
         | H : Forall _ (_ :: _) |- _ => inversion_clear H
         end.
  run_double.
  repeat match goal with
         | H : Double.orZero _ = (_ * _)%float |- _ => rewrite H; clear H
         end.
  reflexivity.
Qed.

Lemma revisions_agree_up_to_scaling_witness :
  Double.AppMillions.calculateAllMetrics scenarioMillions 12 (Some Individual)
    false 0 "도소매업"
  = Double.App.calculateAllMetrics scenario 12 (Some Individual) false 0
      "도소매업".
Proof.
  apply revisions_agree_up_to_scaling.
  repeat constructor.
Defined.

(** The product is the one of the doubles: 8.2 read in millions is
    8199999.999999999, which is not what ["8200000"] reads as. *)
Example scaling_rounds :
  (Double.orZero (Double.Number "8.2") * 1000000
   =? Double.orZero (Double.Number "8200000"))%float = false /\
  ~ Double.scaledInputs (setField Frevenue "8.2" scenarioMillions)
      (setField Frevenue "8200000" scenario).
Proof.
  split; [vm_compute; reflexivity|].
  intros H. inversion_clear H as [|? ? Hrev _].
  vm_compute in Hrev. discriminate Hrev.
Qed.

(** ** Unset entity type, blank input and unknown industry *)

(** C6.  A [null] entity type short-circuits to the empty record,
    whatever the other arguments are, and every field of that record is
    [undefined].  With an individual or a corporation every field of the
    record holds a value, for every industry key whose lookup does not end
    at a member of [Object.prototype]: the keys of the table, which are
    all the form passes, and every string that names no such member. *)
Theorem entity_short_circuit (data : YearData) (settlementMonth : float)
    (includeLocalTax : bool) (taxCreditRate : float) (industry : string) :
  Double.App.calculateAllMetrics data settlementMonth None includeLocalTax
    taxCreditRate industry = Normal Double.emptyResult /\
  Forall (fun field => field Double.emptyResult = None) Double.resultFields /\
  (Double.plainKey industry ->
   forall e : EntityTag,
   exists r,
     Double.App.calculateAllMetrics data settlementMonth (Some e)
       includeLocalTax taxCreditRate industry = Normal r /\
     Forall (fun field => is_Some (field r)) Double.resultFields).
Proof.
  split; [reflexivity|]. split; [repeat constructor|].
  intros Hkey e. run_double. eexists. split; [reflexivity|].
  repeat (apply Forall_cons; split; [eexists; reflexivity|]).
  apply Forall_cons. split; [|constructor].
  double_fields. unfold Double.marginOf, Get.
  destruct Hkey as [[m Hm]|Hproto].
  - rewrite Hm. eexists. reflexivity.
  - destruct (Double.INDUSTRY_PROFIT_MARGINS !! industry);
      [eexists; reflexivity|].
    rewrite bool_decide_eq_false_2 by exact Hproto. eexists. reflexivity.
Qed.

Lemma entity_short_circuit_witness :
  exists r,
    Double.App.calculateAllMetrics scenario 12 (Some Corporate) true 0.5
      "건설업" = Normal r /\
    Forall (fun field => is_Some (field r)) Double.resultFields.
Proof.
  apply (proj2 (proj2 (entity_short_circuit scenario 12 true 0.5 "건설업"))).
  left. vm_compute. eexists. reflexivity.
Defined.

(** What a direct call with the name of a member of [Object.prototype]
    returns: the lookup finds the member, which is truthy and has no
    margin for the entity type, so [profitMargin] is [undefined] and
    [safeProfit] is [NaN].  The form never passes such a key. *)
Lemma inherited_key_direct_call :
  Double.INDUSTRY_PROFIT_MARGINS !! "constructor"%string = None /\
  exists r profit,
    Double.App.calculateAllMetrics scenario 12 (Some Individual) false 0
      "constructor" = Normal r /\
    Double.profitMargin r = None /\
    Double.safeProfit r = Some profit /\
    is_nan profit = true.
Proof.
  split; [vm_compute; reflexivity|].
  run_double. do 2 eexists. split; [reflexivity|]. repeat split.
Qed.





(** * The component *)

(** ** The gate in front of the result view *)

Lemma Qeq_bool_false (x y : Q) : Qeq_bool x y = false <-> ~ x == y.
Proof.
  split.
  - intros H Heq. apply Qeq_bool_iff in Heq. congruence.
  - intros H. destruct (Qeq_bool x y) eqn:E; [|reflexivity].
    apply Qeq_bool_iff in E. contradiction.
Qed.

Lemma noMonth_false (m : option Q) :
  Ui.noMonth m = false <-> exists q, m = Some q /\ ~ q == 0.
Proof.
  destruct m as [q|]; cbn.
  - rewrite Qeq_bool_false. split.
    + intros H. now exists q.
    + intros (q' & [= <-] & H). exact H.
  - split; [discriminate | intros (q & [=] & _)].
Qed.

Lemma ready_dec (s : Ui.State) : ready s \/ ~ ready s.
Proof.
  unfold ready.
  destruct (Ui.entityType s) as [e|]; [|right; intros (H & _); now apply H].
  destruct (Ui.noMonth (Ui.settlementMonth s)) eqn:Hm.
  { right. intros (_ & Hmonth & _). apply noMonth_false in Hmonth. congruence. }
  apply noMonth_false in Hm.
  destruct (Ui.taxCreditType s) as [t|];
    [|right; intros (_ & _ & H & _); now apply H].
  destruct (Qeq_bool (Ui.taxCreditRate s) 0) eqn:Hrate.
  - apply Qeq_bool_iff in Hrate. destruct t.
    + left. repeat split; try discriminate; try assumption.
      intros [[=]|[=]].
    + right. intros (_ & _ & _ & H). apply H; [now left | assumption].
    + right. intros (_ & _ & _ & H). apply H; [now right | assumption].
  - apply Qeq_bool_false in Hrate. left.
    repeat split; try discriminate; try assumption. intros _. exact Hrate.
Qed.

Lemma handleViewResult_cases (s : Ui.State) :
  (ready s ->
   Ui.handleViewResult s
   = (Ui.showResult s,
      if Ui.hasInputs s then [Ui.GetAIAnalysis] else [])) /\
  (~ ready s ->
   exists message, Ui.handleViewResult s = (s, [Ui.Alert message])).
Proof.
  unfold ready, Ui.handleViewResult. split.
  - intros (He & Hm & Ht & Hrate).
    apply noMonth_false in Hm. rewrite Hm.
    destruct (Ui.entityType s); [|contradiction].
    destruct (Ui.taxCreditType s) as [t|]; [|contradiction].
    cbn [Ui.isNull].
    destruct t; cbn [Ui.isTag andb]; try reflexivity.
    + assert (H : ~ Ui.taxCreditRate s == 0) by (apply Hrate; now left).
      apply Qeq_bool_false in H. now rewrite H.
    + assert (H : ~ Ui.taxCreditRate s == 0) by (apply Hrate; now right).
      apply Qeq_bool_false in H. now rewrite H.
  - intros Hnot.
    destruct (Ui.entityType s) as [e|]; cbn [Ui.isNull];
      [|eexists; reflexivity].
    destruct (Ui.noMonth (Ui.settlementMonth s)) eqn:Hm;
      [eexists; reflexivity|].
    apply noMonth_false in Hm.
    destruct (Ui.taxCreditType s) as [t|]; cbn [Ui.isNull];
      [|eexists; reflexivity].
    destruct (Qeq_bool (Ui.taxCreditRate s) 0) eqn:Hrate.
    + destruct t; cbn [Ui.isTag andb]; try (eexists; reflexivity).
      exfalso. apply Hnot. repeat split; try discriminate; try assumption.
      intros [[=]|[=]].
    + exfalso. apply Hnot. apply Qeq_bool_false in Hrate.
      repeat split; try discriminate; try assumption. intros _. exact Hrate.
Qed.


(** X1.  [handleViewResult] opens the result view on page 1 when every
    required selection has been made, requesting the analysis exactly
    when some field has been filled in; otherwise it leaves the state as
    it is and raises one alert. *)
Theorem view_result_gate (s : Ui.State) :
  (ready s ->
   Ui.handleViewResult s
   = (Ui.showResult s,
      if Ui.hasInputs s then [Ui.GetAIAnalysis] else [])) /\
  (~ ready s ->
   exists message, Ui.handleViewResult s = (s, [Ui.Alert message])).
Proof. apply handleViewResult_cases. Qed.

Lemma view_result_gate_witness :
  Ui.handleViewResult selectedState
  = (Ui.showResult selectedState,
     if Ui.hasInputs selectedState then [Ui.GetAIAnalysis] else [])
  /\ exists message,
      Ui.handleViewResult Ui.initialState
      = (Ui.initialState, [Ui.Alert message]).
Proof.
  split.
  - apply (proj1 (view_result_gate selectedState)).
    repeat split; try discriminate.
    + exists 9. split; [reflexivity | discriminate].
    + intros [[=]|[=]].
  - apply (proj2 (view_result_gate Ui.initialState)).
    intros (H & _). now apply H.
Defined.

(** X2.  Choosing the startup or the special credit resets the rate to
    0, so that [handleViewResult] refuses to open the result view until
    a rate has been chosen again, whatever the rest of the state is. *)
Theorem credit_type_change_needs_rate (t : Ui.TaxCreditTag) (s : Ui.State) :
  t <> Ui.CreditNone ->
  Ui.taxCreditRate (Ui.handleTaxCreditTypeChange (Some t) s) = 0 /\
  exists message,
    Ui.handleViewResult (Ui.handleTaxCreditTypeChange (Some t) s)
    = (Ui.handleTaxCreditTypeChange (Some t) s, [Ui.Alert message]).
Proof.
  intros Ht. split; [reflexivity|].
  apply (proj2 (handleViewResult_cases _)).
  intros (_ & _ & _ & Hrate). apply Hrate; [|reflexivity].
  destruct t; [contradiction | now left | now right].
Qed.

Lemma credit_type_change_needs_rate_witness :
  Ui.taxCreditRate
    (Ui.handleTaxCreditTypeChange (Some Ui.CreditStartup) Ui.initialState) = 0 /\
  exists message,
    Ui.handleViewResult
      (Ui.handleTaxCreditTypeChange (Some Ui.CreditStartup) Ui.initialState)
    = (Ui.handleTaxCreditTypeChange (Some Ui.CreditStartup) Ui.initialState,
       [Ui.Alert message]).
Proof.
  apply (credit_type_change_needs_rate Ui.CreditStartup Ui.initialState).
  discriminate.
Defined.

(** X3.  When the button takes the input view to the result view, the
    result view never shows the placeholder for missing selections, and it
    shows the pages exactly when the analysis was requested. *)
Theorem result_view_consistent (s : Ui.State) :
  Ui.viewMode s = Ui.ViewInput ->
  Ui.viewMode (fst (Ui.handleViewResult s)) = Ui.ViewResult ->
  Ui.renderResultContent (fst (Ui.handleViewResult s)) <> Ui.RequiredMissing /\
  (In Ui.GetAIAnalysis (snd (Ui.handleViewResult s)) <->
   Ui.renderResultContent (fst (Ui.handleViewResult s)) = Ui.Pages).
Proof.
  intros Hin Hout.
  destruct (ready_dec s) as [Hr|Hn].
  - rewrite (proj1 (handleViewResult_cases s) Hr). cbn [fst snd].
    destruct Hr as (He & Hm & Ht & _). apply noMonth_false in Hm.
    unfold Ui.renderResultContent, Ui.hasInputs.
    cbn [Ui.showResult Ui.entityType Ui.settlementMonth Ui.taxCreditType
         Ui.yearsData].
    rewrite Hm.
    destruct (Ui.entityType s); [|contradiction].
    destruct (Ui.taxCreditType s); [|contradiction].
    cbn [Ui.isNull orb].
    match goal with |- context [bool_decide ?P] => destruct (bool_decide P) end;
      cbn [negb]; split; try discriminate.
    + split; [reflexivity | intros _; now left].
    + split; [intros [] | discriminate].
  - destruct (proj2 (handleViewResult_cases s) Hn) as [message Hmsg].
    rewrite Hmsg in Hout. cbn [fst] in Hout. congruence.
Qed.

Lemma result_view_consistent_witness :
  Ui.renderResultContent (fst (Ui.handleViewResult selectedState))
  <> Ui.RequiredMissing /\
  (In Ui.GetAIAnalysis (snd (Ui.handleViewResult selectedState)) <->
   Ui.renderResultContent (fst (Ui.handleViewResult selectedState)) = Ui.Pages).
Proof.
  apply (result_view_consistent selectedState); reflexivity.
Defined.

(** ** Editing the figures of a year *)

Lemma property_insert (o : gmap string string) (k k' v : string) :
  Ui.property (<[k := v]> o) k'
  = if decide (k = k') then v else Ui.property o k'.
Proof.
  unfold Ui.property. destruct (decide (k = k')) as [->|Hne].
  - now rewrite lookup_insert_eq.
  - now rewrite lookup_insert_ne.
Qed.

(** Writing a property of the object is replacing the field of the record
    [calculateAllMetrics] reads. *)
Lemma asYearData_insert (f : Field) (v : string) (o : gmap string string) :
  Ui.asYearData (<[Ui.fieldName f := v]> o) = setField f v (Ui.asYearData o).
Proof.
  destruct f; unfold Ui.asYearData, setField;
    cbn [Ui.fieldName revenue cogs sga nonOpIncome nonOpExpense
         additionalExpenses];
    rewrite !property_insert; reflexivity.
Qed.

Lemma calculateYear_edit (s : Ui.State) (year y : Z) (f : Field) (v : string) :
  Ui.calculateYear (Ui.handleYearDataChange year f v s) y
  = if decide (y = year)
    then App.calculateAllMetrics
           (setField f v (Ui.asYearData (default ∅ (Ui.yearsData s !! year))))
           (Ui.monthOrZero (Ui.settlementMonth s)) (Ui.entityType s)
           (Ui.includeLocalTax s) (Ui.taxCreditRate s) (Ui.industry s)
    else Ui.calculateYear s y.
Proof.
  unfold Ui.calculateYear, Ui.handleYearDataChange.
  cbn [Ui.yearsData Ui.settlementMonth Ui.entityType Ui.includeLocalTax
       Ui.taxCreditRate Ui.industry].
  destruct (decide (y = year)) as [->|Hne].
  - rewrite lookup_insert_eq. now rewrite asYearData_insert.
  - now rewrite lookup_insert_ne by congruence.
Qed.

(** What the [forEach] leaves in [results]. *)
Lemma forEachYear_lookup (s : Ui.State) (years : list Z) :
  forall (results c : gmap Z CalculationResult),
    Ui.forEachYear s years results = Normal c ->
    forall y,
      (y ∈ years -> exists r, Ui.calculateYear s y = Normal r /\ c !! y = Some r)
      /\ (y ∉ years -> c !! y = results !! y).
Proof.
  induction years as [|year rest IH]; intros results c Hc y.
  - cbn in Hc. injection Hc as <-. split; [intros H; inversion H | reflexivity].
  - cbn [Ui.forEachYear] in Hc.
    destruct (Ui.calculateYear s year) as [r|err] eqn:Hyear; [|discriminate].
    cbn [mbind Completion_bind] in Hc.
    destruct (IH _ _ Hc y) as [Hin Hout].
    destruct (decide (y ∈ rest)) as [Hrest|Hrest].
    + split; [intros _; now apply Hin|].
      intros Hnot. exfalso. apply Hnot. now right.
    + split.
      * intros Hy. apply elem_of_cons in Hy as [->|Hy]; [|contradiction].
        exists r. split; [assumption|].
        rewrite (Hout Hrest). apply lookup_insert_eq.
      * intros Hnot. rewrite (Hout Hrest).
        apply lookup_insert_ne. intros ->. apply Hnot. now left.
Qed.

Lemma forEachYear_total (s : Ui.State) (years : list Z) :
  Forall (fun y => exists r, Ui.calculateYear s y = Normal r) years ->
  forall results, exists c, Ui.forEachYear s years results = Normal c.
Proof.
  induction 1 as [|year rest [r Hr] _ IH]; intros results.
  - eexists. reflexivity.
  - cbn [Ui.forEachYear]. rewrite Hr. cbn [mbind Completion_bind]. apply IH.
Qed.

Lemma forEachYear_ext (s s' : Ui.State) (years : list Z) :
  Forall (fun y => Ui.calculateYear s y = Ui.calculateYear s' y) years ->
  forall results,
    Ui.forEachYear s years results = Ui.forEachYear s' years results.
Proof.
  induction 1 as [|year rest Hyear _ IH]; intros results; [reflexivity|].
  cbn [Ui.forEachYear]. rewrite Hyear.
  destruct (Ui.calculateYear s' year); cbn [mbind Completion_bind];
    [apply IH | reflexivity].
Qed.

Lemma calculateYear_present (s : Ui.State) (y : Z) :
  is_Some (Ui.yearsData s !! y) ->
  exists r, Ui.calculateYear s y = Normal r.
Proof.
  intros [o Ho]. unfold Ui.calculateYear. rewrite Ho.
  apply calculateAllMetrics_total.
Qed.

Lemma initial_years (y : Z) :
  y ∈ Ui.YEARS -> Ui.yearsData Ui.initialState !! y = Some Ui.initialYearData.
Proof.
  intros Hy. unfold Ui.initialState. cbn [Ui.yearsData].
  unfold list_to_map at 1. cbn [foldr fst snd].
  unfold Ui.YEARS in Hy.
  repeat (apply elem_of_cons in Hy as [->|Hy];
          [repeat (rewrite lookup_insert_ne by discriminate);
           apply lookup_insert_eq|]).
  inversion Hy.
Qed.

(** X4.  The state starts with an object for each of the three years and
    no edit removes one; in such a state [allCalculations] completes with
    a result for exactly those years. *)
Theorem years_are_kept :
  hasYears Ui.initialState /\
  (forall s year f v,
      hasYears s -> hasYears (Ui.handleYearDataChange year f v s)) /\
  (forall s,
      hasYears s ->
      exists c, Ui.allCalculations s = Normal c /\
                dom c = list_to_set Ui.YEARS).
Proof.
  split; [|split].
  - apply Forall_forall. intros y Hy. rewrite (initial_years y Hy).
    now eexists.
  - intros s year f v Hs. unfold hasYears in *.
    eapply Forall_impl; [exact Hs|].
    intros y [o Ho]. cbn [Ui.handleYearDataChange Ui.yearsData].
    destruct (decide (y = year)) as [->|Hne].
    + rewrite lookup_insert_eq. eexists. reflexivity.
    + rewrite lookup_insert_ne by congruence. now exists o.
  - intros s Hs.
    assert (Hall : Forall (fun y => exists r, Ui.calculateYear s y = Normal r)
                          Ui.YEARS).
    { eapply Forall_impl; [exact Hs|]. intros y. apply calculateYear_present. }
    destruct (forEachYear_total s Ui.YEARS Hall ∅) as [c Hc].
    exists c. split; [exact Hc|].
    apply set_eq. intros y. rewrite elem_of_dom, elem_of_list_to_set.
    destruct (forEachYear_lookup s Ui.YEARS ∅ c Hc y) as [Hin Hout].
    split.
    + intros [r Hr]. destruct (decide (y ∈ Ui.YEARS)) as [H|H]; [exact H|].
      rewrite (Hout H), lookup_empty in Hr. discriminate.
    + intros Hy. destruct (Hin Hy) as (r & _ & ->). now eexists.
Qed.

Lemma years_are_kept_witness :
  exists c,
    Ui.allCalculations (Ui.handleYearDataChange 2024 Frevenue "120" selectedState)
    = Normal c /\
    dom c = list_to_set Ui.YEARS.
Proof.
  apply (proj2 (proj2 years_are_kept)).
  apply (proj1 (proj2 years_are_kept)).
  exact (proj1 years_are_kept).
Defined.

(** X5.  Without an object for a year, [allCalculations] throws a
    [TypeError] once an entity type has been chosen, and does not throw
    while the entity type is [null]. *)
Theorem missing_year_throws (s : Ui.State) :
  ~ hasYears s ->
  (Ui.entityType s <> None -> Ui.allCalculations s = Throw TypeError) /\
  (Ui.entityType s = None -> exists c, Ui.allCalculations s = Normal c).
Proof.
  intros Hmissing. split.
  - intros He. unfold Ui.allCalculations. generalize (∅ : gmap Z CalculationResult).
    unfold hasYears in Hmissing. revert Hmissing.
    induction Ui.YEARS as [|year rest IH]; intros Hmissing results.
    + exfalso. apply Hmissing. constructor.
    + cbn [Ui.forEachYear]. unfold Ui.calculateYear at 1.
      destruct (Ui.yearsData s !! year) as [o|] eqn:Ho.
      * destruct (calculateAllMetrics_total (Ui.asYearData o)
                    (Ui.monthOrZero (Ui.settlementMonth s)) (Ui.entityType s)
                    (Ui.includeLocalTax s) (Ui.taxCreditRate s) (Ui.industry s))
          as [r ->].
        cbn [mbind Completion_bind]. apply IH.
        intros Hrest. apply Hmissing. constructor; [exists o; exact Ho | exact Hrest].
      * destruct (Ui.entityType s); [reflexivity | contradiction].
  - intros He. apply forEachYear_total.
    apply Forall_forall. intros y _. unfold Ui.calculateYear. rewrite He.
    destruct (Ui.yearsData s !! y); eexists; reflexivity.
Qed.

Lemma missing_year_throws_witness :
  Ui.allCalculations emptiedState = Throw TypeError.
Proof.
  apply (proj1 (missing_year_throws emptiedState
                  ltac:(intros H; inversion H as [|? ? [o Ho] ?];
                        discriminate))).
  discriminate.
Defined.

Lemma edit_is_local_aux (s : Ui.State) (year : Z) (f : Field) (v : string)
    (c c' : gmap Z CalculationResult) :
  Ui.allCalculations s = Normal c ->
  Ui.allCalculations (Ui.handleYearDataChange year f v s) = Normal c' ->
  (forall y, y <> year -> c' !! y = c !! y) /\
  (year ∈ Ui.YEARS ->
   exists r,
     App.calculateAllMetrics
       (setField f v (Ui.asYearData (default ∅ (Ui.yearsData s !! year))))
       (Ui.monthOrZero (Ui.settlementMonth s)) (Ui.entityType s)
       (Ui.includeLocalTax s) (Ui.taxCreditRate s) (Ui.industry s)
     = Normal r /\
     c' !! year = Some r).
Proof.
  intros Hc Hc'. unfold Ui.allCalculations in *. split.
  - intros y Hy.
    destruct (forEachYear_lookup _ _ _ _ Hc y) as [Hin Hout].
    destruct (forEachYear_lookup _ _ _ _ Hc' y) as [Hin' Hout'].
    destruct (decide (y ∈ Ui.YEARS)) as [Hmem|Hmem].
    + destruct (Hin Hmem) as (r & Hr & ->).
      destruct (Hin' Hmem) as (r' & Hr' & ->).
      rewrite calculateYear_edit in Hr'.
      destruct (decide (y = year)); [contradiction | congruence].
    + now rewrite (Hout Hmem), (Hout' Hmem).
  - intros Hmem.
    destruct (proj1 (forEachYear_lookup _ _ _ _ Hc' year) Hmem)
      as (r & Hr & Hlook).
    rewrite calculateYear_edit in Hr.
    destruct (decide (year = year)); [|contradiction].
    now exists r.
Qed.

Lemma hasYears_edit (s : Ui.State) (year : Z) (f : Field) (v : string) :
  hasYears s -> hasYears (Ui.handleYearDataChange year f v s).
Proof.
  intros Hs. unfold hasYears in *.
  eapply Forall_impl; [exact Hs|].
  intros y [o Ho]. cbn [Ui.handleYearDataChange Ui.yearsData].
  destruct (decide (y = year)) as [->|Hne].
  - rewrite lookup_insert_eq. eexists. reflexivity.
  - rewrite lookup_insert_ne by congruence. now exists o.
Qed.

Lemma allCalculations_total (s : Ui.State) :
  hasYears s -> exists c, Ui.allCalculations s = Normal c.
Proof.
  intros Hs. apply forEachYear_total.
  eapply Forall_impl; [exact Hs|]. intros y. apply calculateYear_present.
Qed.

(** X6.  In a state that holds the three years, an edit of one year's
    figures changes the result of that year only: it becomes what
    [calculateAllMetrics] gives for the year's record with the one field
    replaced, and every other entry of [allCalculations] stays as it
    was. *)
Theorem edit_is_local (s : Ui.State) (year : Z) (f : Field) (v : string) :
  hasYears s ->
  exists c c',
    Ui.allCalculations s = Normal c /\
    Ui.allCalculations (Ui.handleYearDataChange year f v s) = Normal c' /\
    (forall y, y <> year -> c' !! y = c !! y) /\
    (year ∈ Ui.YEARS ->
     exists r,
       App.calculateAllMetrics
         (setField f v (Ui.asYearData (default ∅ (Ui.yearsData s !! year))))
         (Ui.monthOrZero (Ui.settlementMonth s)) (Ui.entityType s)
         (Ui.includeLocalTax s) (Ui.taxCreditRate s) (Ui.industry s)
       = Normal r /\
       c' !! year = Some r).
Proof.
  intros Hs.
  destruct (allCalculations_total s Hs) as [c Hc].
  destruct (allCalculations_total _ (hasYears_edit s year f v Hs)) as [c' Hc'].
  exists c, c'. split; [exact Hc|]. split; [exact Hc'|].
  now apply edit_is_local_aux.
Qed.

Lemma selectedState_hasYears : hasYears selectedState.
Proof.
  apply Forall_forall. intros y Hy.
  exists Ui.initialYearData. now apply initial_years.
Qed.

Lemma edit_is_local_witness :
  exists c c',
    Ui.allCalculations selectedState = Normal c /\
    Ui.allCalculations (Ui.handleYearDataChange 2024 Frevenue "120" selectedState)
    = Normal c' /\
    (forall y, y <> 2024%Z -> c' !! y = c !! y) /\
    (2024%Z ∈ Ui.YEARS ->
     exists r,
       App.calculateAllMetrics
         (setField Frevenue "120"
            (Ui.asYearData
               (default ∅ (Ui.yearsData selectedState !! 2024%Z))))
         (Ui.monthOrZero (Ui.settlementMonth selectedState))
         (Ui.entityType selectedState) (Ui.includeLocalTax selectedState)
         (Ui.taxCreditRate selectedState) (Ui.industry selectedState)
       = Normal r /\
       c' !! 2024%Z = Some r).
Proof.
  apply (edit_is_local selectedState 2024 Frevenue "120").
  exact selectedState_hasYears.
Defined.

(** X7.  Entering a blank or non-numeric string in a field gives the same
    [allCalculations] as entering ["0"]. *)
Theorem blank_entry_is_zero (s : Ui.State) (year : Z) (f : Field) (v : string) :
  blank v \/ nonNumeric v ->
  Ui.allCalculations (Ui.handleYearDataChange year f v s)
  = Ui.allCalculations (Ui.handleYearDataChange year f "0" s).
Proof.
  intros Hv. unfold Ui.allCalculations. apply forEachYear_ext.
  apply Forall_forall. intros y _. rewrite !calculateYear_edit.
  destruct (decide (y = year)); [|reflexivity].
  now apply blank_field_is_zero.
Qed.

Lemma blank_entry_is_zero_witness :
  Ui.allCalculations (Ui.handleYearDataChange 2025 Fsga "" selectedState)
  = Ui.allCalculations (Ui.handleYearDataChange 2025 Fsga "0" selectedState).
Proof.
  apply (blank_entry_is_zero selectedState 2025 Fsga "").
  left. reflexivity.
Defined.

(** ** All figures zero *)

Lemma taxOf_max0_nonpositive (e : EntityTag) (x : Q) :
  x <= 0 -> taxOf e (max0 x) = 0.
Proof.
  intros Hx. unfold max0. apply Qle_bool_iff in Hx. rewrite Hx.
  rewrite taxOf_eq. reflexivity.
Qed.

Lemma deduction_nonneg (e : EntityTag) :
  0 <= match e with Individual => BASIC_DEDUCTION | Corporate => 0 end.
Proof. destruct e; unfold BASIC_DEDUCTION; lra. Qed.

Lemma no_income_no_tax (e : EntityTag) (a b c d f g h : Q) :
  a == 0 -> b == 0 -> c == 0 -> d == 0 -> g == 0 -> 0 <= h ->
  taxOf e (max0 ((a - b - c) * f + d * f - g * f - h)) = 0.
Proof.
  intros Ha Hb Hc Hd Hg Hh. apply taxOf_max0_nonpositive.
  rewrite Ha, Hb, Hc, Hd, Hg. lra.
Qed.

Lemma no_income_no_tax_after (e : EntityTag) (a b c d f g k h : Q) :
  a == 0 -> b == 0 -> c == 0 -> d == 0 -> g == 0 -> k == 0 -> 0 <= h ->
  taxOf e (max0 ((a - b - c) * f + d * f - g * f - k - h)) = 0.
Proof.
  intros Ha Hb Hc Hd Hg Hk Hh. apply taxOf_max0_nonpositive.
  rewrite Ha, Hb, Hc, Hd, Hg, Hk. lra.
Qed.

Lemma all_amounts_zero (data : YearData) (settlementMonth : Q)
    (e : EntityTag) (includeLocalTax : bool) (taxCreditRate : Q)
    (industry : string) :
  (forall f, orZero (Number (getField f data)) == 0) ->
  exists r,
    App.calculateAllMetrics data settlementMonth (Some e) includeLocalTax
      taxCreditRate industry = Normal r /\
    Forall (fun field => isNum (field r) 0) amountFields.
Proof.
  intros Hzero.
  pose proof (Hzero Frevenue) as H1. pose proof (Hzero Fcogs) as H2.
  pose proof (Hzero Fsga) as H3. pose proof (Hzero FnonOpIncome) as H4.
  pose proof (Hzero FnonOpExpense) as H5.
  pose proof (Hzero FadditionalExpenses) as H6.
  cbn [getField] in H1, H2, H3, H4, H5, H6. clear Hzero.
  run_metrics. eexists. split; [reflexivity|].
  rewrite (no_income_no_tax e _ _ _ _ _ _ _ H1 H2 H3 H4 H5 (deduction_nonneg e)).
  rewrite (no_income_no_tax_after e _ _ _ _ _ _ _ _ H1 H2 H3 H4 H5 H6
             (deduction_nonneg e)).
  revert H1 H2 H3 H4 H5 H6.
  generalize (orZero (Number (revenue data))), (orZero (Number (cogs data))),
    (orZero (Number (sga data))), (orZero (Number (nonOpIncome data))),
    (orZero (Number (nonOpExpense data))),
    (orZero (Number (additionalExpenses data))).
  intros a b c d g k Ha Hb Hc Hd Hg Hk.
  generalize (if positive settlementMonth then 12 / settlementMonth else 0).
  intros factor.
  unfold amountFields, resultFields. cbn [take].
  repeat (apply List.Forall_cons; [fields; rewrite ?Ha, ?Hb, ?Hc, ?Hd, ?Hg, ?Hk;
                                   try (destruct includeLocalTax); ring|]).
  apply List.Forall_nil.
Qed.




(** ** Whether anything has been entered *)

Lemma hasInputs_false (s : Ui.State) :
  Ui.hasInputs s = false <->
  forall year o k v,
    Ui.yearsData s !! year = Some o -> o !! k = Some v -> v = ""%string.
Proof.
  unfold Ui.hasInputs. rewrite bool_decide_eq_false. split.
  - intros Hnone year o k v Ho Hk.
    destruct (decide (v = ""%string)) as [|Hne]; [assumption|].
    exfalso. apply Hnone. exists year, o. split; [exact Ho|].
    exists k, v. now split.
  - intros Hall (year & o & Ho & k & v & Hk & Hv).
    apply Hv. now apply (Hall year o k v).
Qed.

(** X9.  Nothing has been entered in the initial state; entering a
    non-empty string in any field of any year makes [hasInputs] true, and
    entering the empty string never does. *)
Theorem hasInputs_tracks_entries :
  Ui.hasInputs Ui.initialState = false /\
  (forall s year f v,
      v <> ""%string -> Ui.hasInputs (Ui.handleYearDataChange year f v s) = true) /\
  (forall s year f,
      Ui.hasInputs s = false ->
      Ui.hasInputs (Ui.handleYearDataChange year f "" s) = false).
Proof.
  split; [|split].
  - vm_compute. reflexivity.
  - intros s year f v Hv. unfold Ui.hasInputs. apply bool_decide_eq_true.
    cbn [Ui.handleYearDataChange Ui.yearsData].
    eexists year, _. split; [apply lookup_insert_eq|].
    exists (Ui.fieldName f), v. split; [apply lookup_insert_eq | exact Hv].
  - intros s year f Hs. rewrite hasInputs_false in *.
    intros y o k v Ho Hk. cbn [Ui.handleYearDataChange Ui.yearsData] in Ho.
    destruct (decide (year = y)) as [->|Hne].
    + rewrite lookup_insert_eq in Ho. injection Ho as <-.
      destruct (decide (Ui.fieldName f = k)) as [Heq|Hk'].
      * subst k. rewrite lookup_insert_eq in Hk. congruence.
      * rewrite lookup_insert_ne in Hk by assumption.
        destruct (Ui.yearsData s !! y) as [o|] eqn:Hy; cbn in Hk.
        -- now apply (Hs y o k v).
        -- rewrite lookup_empty in Hk. discriminate.
    + rewrite lookup_insert_ne in Ho by assumption. now apply (Hs y o k v).
Qed.

Lemma hasInputs_tracks_entries_witness :
  Ui.hasInputs (Ui.handleYearDataChange 2023 Fcogs "7" Ui.initialState) = true /\
  Ui.hasInputs (Ui.handleYearDataChange 2023 Fcogs "" Ui.initialState) = false.
Proof.
  split.
  - apply (proj1 (proj2 hasInputs_tracks_entries)). discriminate.
  - apply (proj2 (proj2 hasInputs_tracks_entries)).
    vm_compute. reflexivity.
Defined.

Lemma unentered_property (o : gmap string string) (k : string) :
  (forall k' v, o !! k' = Some v -> v = ""%string) ->
  orZero (Number (Ui.property o k)) == 0.
Proof.
  intros Hall. unfold Ui.property.
  destruct (o !! k) as [v|] eqn:Hk; cbn [default].
  - rewrite (Hall k v Hk). reflexivity.
  - reflexivity.
Qed.

(** X10.  While nothing has been entered, every amount computed for a
    year is 0, whatever entity type, month, credit and industry are
    selected. *)
Theorem no_inputs_all_zero (s : Ui.State) (year : Z) (e : EntityTag) :
  Ui.hasInputs s = false ->
  is_Some (Ui.yearsData s !! year) ->
  Ui.entityType s = Some e ->
  exists r,
    Ui.calculateYear s year = Normal r /\
    Forall (fun field => isNum (field r) 0) amountFields.
Proof.
  intros Hnone [o Ho] He. unfold Ui.calculateYear. rewrite Ho, He.
  apply all_amounts_zero.
  rewrite hasInputs_false in Hnone.
  intros f. destruct f; cbn [getField Ui.asYearData revenue cogs sga
                              nonOpIncome nonOpExpense additionalExpenses];
    apply unentered_property; intros k v Hk; now apply (Hnone year o k v).
Qed.

Lemma no_inputs_all_zero_witness :
  exists r,
    Ui.calculateYear selectedState 2025 = Normal r /\
    Forall (fun field => isNum (field r) 0) amountFields.
Proof.
  apply (no_inputs_all_zero selectedState 2025 Corporate).
  - vm_compute. reflexivity.
  - exists Ui.initialYearData. vm_compute. reflexivity.
  - reflexivity.
Defined.

(** ** Taxes are never negative *)


Lemma taxes_nonneg (tb ta r m : Q) :
  0 <= tb -> 0 <= ta -> 0 <= r <= 1 -> 1 <= m ->
  0 <= ta * r /\ 0 <= ta - ta * r /\
  0 <= tb * (1 - r) * m /\ 0 <= (ta - ta * r) * m.
Proof.
  intros Hb Ha [Hr0 Hr1] Hm.
  assert (H1 : 0 <= ta * r) by (apply Qmult_le_0_compat; lra).
  assert (H2 : 0 <= ta * (1 - r)) by (apply Qmult_le_0_compat; lra).
  assert (H3 : 0 <= tb * (1 - r) * m)
    by (repeat apply Qmult_le_0_compat; lra).
  assert (H4 : 0 <= ta * (1 - r) * m)
    by (repeat apply Qmult_le_0_compat; lra).
  assert (E : (ta - ta * r) * m == ta * (1 - r) * m) by ring.
  repeat split; lra.
Qed.

Lemma localTax_ge_1 (includeLocalTax : bool) :
  1 <= (if includeLocalTax then 1.1 else 1).
Proof. destruct includeLocalTax; lra. Qed.

(** X11.  On inputs in range, on which no operation of the calculator
    overflows (no field is the literal [Infinity] or reads as more than
    10^300 in magnitude, and the month count is not positive or is at
    least 1), and with a credit rate between 0 and 1, no tax figure of the
    result is negative: the base tax after the adjustment, the credit,
    the tax after the credit and both final taxes. *)
Theorem tax_figures_nonneg (data : YearData) (settlementMonth : Q)
    (e : EntityTag) (includeLocalTax : bool) (taxCreditRate : Q)
    (industry : string) :
  inRange data settlementMonth ->
  0 <= taxCreditRate <= 1 ->
  exists r,
    App.calculateAllMetrics data settlementMonth (Some e) includeLocalTax
      taxCreditRate industry = Normal r /\
    Forall (fun field => rel2 (fun _ x => 0 <= x) (field r) (field r))
           [baseTaxAfter; taxCreditAmountAfter; taxAfterCredit;
            finalTaxBefore; finalTaxAfter].
Proof.
  intros _ Hrate. run_metrics. eexists. split; [reflexivity|].
  repeat (apply List.Forall_cons;
          [fields; name_inputs;
           match goal with
           | |- context [taxOf ?e' ?i] =>
               pose proof (taxOf_nonneg e' i) as Hnn; revert Hnn;
               generalize (taxOf e' i); intros t Hnn
           end;
           destruct (taxes_nonneg t t _ _ Hnn Hnn Hrate
                       (localTax_ge_1 includeLocalTax)) as (? & ? & ? & ?);
           assumption|]).
  apply List.Forall_nil.
Qed.

Lemma tax_figures_nonneg_witness :
  exists r,
    App.calculateAllMetrics scenario 10 (Some Individual) true 0.3 "건설업"
    = Normal r /\
    Forall (fun field => rel2 (fun _ x => 0 <= x) (field r) (field r))
           [baseTaxAfter; taxCreditAmountAfter; taxAfterCredit;
            finalTaxBefore; finalTaxAfter].
Proof.
  apply (tax_figures_nonneg scenario 10 Individual true 0.3 "건설업").
  - split; [|right; lra].
    repeat (apply List.Forall_cons;
            [split; [reflexivity | vm_compute; discriminate]|]).
    apply List.Forall_nil.
  - split; lra.
Defined.

(** ** The share of the tax that is left, on page 1 *)

Lemma min1_bounds (x : Q) : 0 <= x -> 0 <= Ui.min1 x <= 1.
Proof.
  intros Hx. unfold Ui.min1. destruct (Qle_bool 1 x) eqn:H.
  - lra.
  - apply Qle_bool_false in H. lra.
Qed.

(** X12.  [taxSavingsAfterRatio] always lies between 0 and 1, whatever
    [allCalculations] holds for 2025, also when it holds nothing. *)
Theorem ratio_within_unit (calculations : gmap Z CalculationResult) :
  0 <= Ui.taxSavingsAfterRatio calculations <= 1.
Proof.
  unfold Ui.taxSavingsAfterRatio. cbv zeta.
  match goal with |- context [if ?c then _ else _] => destruct c end.
  - apply min1_bounds, max0_nonneg.
  - lra.
Qed.

(** ** Revenue growth, on page 2 *)

(** X14.  The revenue growth shown on page 2 for two years depends on
    their revenue lines and on the settlement month only: it is the same
    for any two set entity types, local tax flags, credit rates and
    industries, and whatever the other five lines of the two years are.
    It is 0 when the earlier revenue reads as 0, and the later year is
    then not looked at. *)
Theorem growth_ignores_settings (dataP dataN dataP' dataN' : YearData)
    (settlementMonth : Q) (e e' : EntityTag)
    (includeLocalTax includeLocalTax' : bool) (taxCreditRate taxCreditRate' : Q)
    (industry industry' : string) (calculations : gmap Z CalculationResult)
    (previous next : Z) :
  previous <> next ->
  revenue dataP' = revenue dataP ->
  revenue dataN' = revenue dataN ->
  exists p n p' n',
    App.calculateAllMetrics dataP settlementMonth (Some e) includeLocalTax
      taxCreditRate industry = Normal p /\
    App.calculateAllMetrics dataN settlementMonth (Some e) includeLocalTax
      taxCreditRate industry = Normal n /\
    App.calculateAllMetrics dataP' settlementMonth (Some e') includeLocalTax'
      taxCreditRate' industry' = Normal p' /\
    App.calculateAllMetrics dataN' settlementMonth (Some e') includeLocalTax'
      taxCreditRate' industry' = Normal n' /\
    Ui.revenueGrowth (<[next := n]> (<[previous := p]> calculations))
      previous next
    = Ui.revenueGrowth (<[next := n']> (<[previous := p']> calculations))
        previous next /\
    (orZero (Number (revenue dataP)) == 0 ->
     forall others : gmap Z CalculationResult,
       Ui.revenueGrowth (<[previous := p]> others) previous next = Normal 0).
Proof.
  intros Hne HP HN. run_metrics.
  do 4 eexists. do 4 (split; [reflexivity|]).
  unfold Ui.revenueGrowth.
  rewrite !(lookup_insert_ne _ next previous)
    by (intros H; apply Hne; now symmetry).
  rewrite !lookup_insert_eq.
  cbn [member mbind Completion_bind]. fields.
  rewrite HP, HN. split; [reflexivity|].
  intros Hzero others. rewrite lookup_insert_eq.
  cbn [member mbind Completion_bind]. fields.
  assert (Ht : Ui.truthy
                 (Some (Fin (orZero (Number (revenue dataP))
                             * (if positive settlementMonth
                                then 12 / settlementMonth else 0))))
               = false).
  { cbn. apply negb_false_iff, Qeq_bool_iff. rewrite Hzero. ring. }
  rewrite Ht. reflexivity.
Qed.

Lemma growth_ignores_settings_witness :
  exists p n p' n',
    App.calculateAllMetrics scenario 9 (Some Corporate) true 0.3 "제조업"
    = Normal p /\
    App.calculateAllMetrics (setField Frevenue "150000000" scenario) 9
      (Some Corporate) true 0.3 "제조업" = Normal n /\
    App.calculateAllMetrics (setField Fcogs "1" scenario) 9
      (Some Individual) false 0 "건설업" = Normal p' /\
    App.calculateAllMetrics
      (setField Fsga "" (setField Frevenue "150000000" scenario)) 9
      (Some Individual) false 0 "건설업" = Normal n' /\
    Ui.revenueGrowth (<[2025%Z := n]> (<[2024%Z := p]> ∅)) 2024 2025
    = Ui.revenueGrowth (<[2025%Z := n']> (<[2024%Z := p']> ∅)) 2024 2025 /\
    (orZero (Number (revenue scenario)) == 0 ->
     forall others : gmap Z CalculationResult,
       Ui.revenueGrowth (<[2024%Z := p]> others) 2024 2025 = Normal 0).
Proof.
  apply (growth_ignores_settings scenario
           (setField Frevenue "150000000" scenario)
           (setField Fcogs "1" scenario)
           (setField Fsga "" (setField Frevenue "150000000" scenario))
           9 Corporate Individual true false 0.3 0 "제조업" "건설업" ∅
           2024 2025).
  - discriminate.
  - reflexivity.
  - reflexivity.
Defined.

(** ** The bar chart of page 2 *)













(** ** Twelve settlement months *)

Lemma positive_true (settlementMonth : Q) :
  0 < settlementMonth -> positive settlementMonth = true.
Proof.
  intros H. unfold positive. apply negb_true_iff.
  destruct (Qle_bool settlementMonth 0) eqn:E; [|reflexivity].
  apply Qle_bool_iff in E. lra.
Qed.

Lemma factor_twelve (settlementMonth : Q) :
  settlementMonth == 12 ->
  (if positive settlementMonth then 12 / settlementMonth else 0) == 1.
Proof.
  intros H. rewrite (positive_true settlementMonth) by lra.
  rewrite H. reflexivity.
Qed.

Lemma identity_line (x f : Q) : f == 1 -> x * f == x.
Proof. intros ->. ring. Qed.

Lemma identity_before (a b c d f : Q) :
  f == 1 -> a * f + b * f - c * f == d -> a + b - c == d.
Proof. intros -> H. rewrite <- H. ring. Qed.

(** X17.  With twelve settlement months annualizing changes nothing:
    each annualized line and subtotal equals the figure of the period,
    the income after the adjustment included. *)
Theorem twelve_months_identity (data : YearData) (settlementMonth : Q)
    (e : EntityTag) (includeLocalTax : bool) (taxCreditRate : Q)
    (industry : string) :
  settlementMonth == 12 ->
  exists r,
    App.calculateAllMetrics data settlementMonth (Some e) includeLocalTax
      taxCreditRate industry = Normal r /\
    Forall (fun pair => rel2 (fun period annual => annual == period)
                             (fst pair r) (snd pair r))
      [ (numRevenue, annualizedRevenue); (numCogs, annualizedCogs);
        (grossProfit, annualizedGrossProfit); (numSga, annualizedSga);
        (operatingIncome, annualizedOperatingIncome);
        (numNonOpIncome, annualizedNonOpIncome);
        (numNonOpExpense, annualizedNonOpExpense);
        (currentNetIncomeBeforeAdjustment,
         annualizedNetIncomeBeforeAdjustment);
        (currentNetIncomeAfterAdjustment,
         annualizedNetIncomeAfterAdjustment) ].
Proof.
  intros Hm. pose proof (factor_twelve _ Hm) as Hf.
  run_metrics. eexists. split; [reflexivity|].
  revert Hf.
  generalize (if positive settlementMonth then 12 / settlementMonth else 0).
  intros f Hf. name_inputs.
  repeat (apply List.Forall_cons;
          [cbn [fst snd]; fields; rewrite Hf; ring|]).
  apply List.Forall_nil.
Qed.

Lemma twelve_months_identity_witness :
  exists r,
    App.calculateAllMetrics scenario 12 (Some Corporate) false 0.05 "부동산업"
    = Normal r /\
    Forall (fun pair => rel2 (fun period annual => annual == period)
                             (fst pair r) (snd pair r))
      [ (numRevenue, annualizedRevenue); (numCogs, annualizedCogs);
        (grossProfit, annualizedGrossProfit); (numSga, annualizedSga);
        (operatingIncome, annualizedOperatingIncome);
        (numNonOpIncome, annualizedNonOpIncome);
        (numNonOpExpense, annualizedNonOpExpense);
        (currentNetIncomeBeforeAdjustment,
         annualizedNetIncomeBeforeAdjustment);
        (currentNetIncomeAfterAdjustment,
         annualizedNetIncomeAfterAdjustment) ].
Proof.
  apply (twelve_months_identity scenario 12 Corporate false 0.05 "부동산업").
  reflexivity.
Defined.

(** ** The tax never exceeds the top rate *)

Lemma scanBrackets_In (income : Q) (brackets : list TaxBracket)
      (b : TaxBracket) :
  scanBrackets income brackets (last brackets) = Some b -> In b brackets.
Proof.
  intros Hscan.
  destruct (scanBrackets_spec income _ _ _ Hscan)
    as [(pre & b0 & post & Hb & -> & _)|[_ Hlast]].
  - injection Hb as <-. apply in_or_app. right. now left.
  - symmetry in Hlast. apply last_Some in Hlast as [l' ->].
    apply in_or_app. right. now left.
Qed.

Lemma bracketsOf_capped (e : EntityTag) :
  Forall (fun b => rate b <= topRate e /\ 0 <= deduction b) (bracketsOf e).
Proof.
  destruct e; repeat (apply List.Forall_cons; [cbn; split; lra|]);
    apply List.Forall_nil.
Qed.

Lemma capped_tax (income r d top : Q) :
  0 <= income -> r <= top -> 0 <= d -> income * r - d <= top * income.
Proof.
  intros Hi Hr Hd.
  assert (H : 0 <= (top - r) * income) by (apply Qmult_le_0_compat; lra).
  assert (E : top * income - income * r == (top - r) * income) by ring.
  lra.
Qed.

(** X18.  On an income that is not negative [calculateTax] never asks
    for more than the top rate of the table times the income: 45 percent
    for an individual, 24 percent for a corporation. *)
Theorem tax_below_top_rate (e : EntityTag) (income : Q) :
  0 <= income ->
  exists t, App.calculateTax e income = Normal t /\ t <= topRate e * income.
Proof.
  intros Hincome. exists (taxOf e income).
  split; [apply calculateTax_total|].
  rewrite taxOf_eq. destruct (Qle_bool income 0) eqn:H0.
  - destruct e; cbn [topRate]; lra.
  - unfold pieceTax.
    destruct (scanBrackets income (bracketsOf e) (last (bracketsOf e)))
      as [b|] eqn:Hscan.
    + apply scanBrackets_In in Hscan.
      pose proof (bracketsOf_capped e) as Hcap.
      rewrite List.Forall_forall in Hcap.
      destruct (Hcap b Hscan) as [Hr Hd]. now apply capped_tax.
    + destruct e; cbn [topRate]; lra.
Qed.

Lemma tax_below_top_rate_witness :
  exists t,
    App.calculateTax Individual 2000000000 = Normal t /\
    t <= topRate Individual * 2000000000.
Proof.
  apply (tax_below_top_rate Individual 2000000000).
  vm_compute. discriminate.
Defined.

(** ** More revenue, no less tax *)





